(** * torbrowser-launcher: the trust-bootstrap and settings core of [common.py]

    A shallow embedding of [torbrowser_launcher/common.py] (class [Common]):
    the fingerprint registry built by [build_paths], key import and refresh,
    the mirror list and the settings store, with the theorems that relate
    the written specification to the code; then the download entries of
    [build_paths], [proxies] and [gnupg_import_ok_pattern], with further
    properties of all of these.

    Conventions of the embedding:
    - a Python [str] (and the bytes of a binary file) is a [string]; each
      character is one code point below 256;
    - a Python [dict] is an association list in insertion order;
    - the file system is a finite map from path names to nodes;
    - [self] and the outside world are threaded explicitly, and a Python
      exception is an outcome of its own that carries the state reached when
      it was raised. *)

From Stdlib Require Import Ascii ZArith Permutation.
From stdpp Require Import gmap strings list fin_maps pretty.

#[local] Set Warnings "-register-all".
Local Open Scope Z_scope.

(** ** Python values *)

Module Py.

(** The objects that [json.load] and [pickle.load] hand to this module.
    Floats are left out: wherever one could turn up, the code treats it as
    it treats an integer. *)
Inductive value : Type :=
| VNone
| VBool (b : bool)
| VInt (z : Z)
| VStr (s : string)
| VList (l : list value)
| VDict (d : list (string * value)).

Abbreviation dict := (list (string * value)).

(** [d[k]] for reading: the binding of [k], if any. *)
Fixpoint dict_get (d : dict) (k : string) : option value :=
  match d with
  | [] => None
  | (k', v) :: d' => if String.eqb k' k then Some v else dict_get d' k
  end.

(** [d[k] = v]: update in place when [k] is bound, append otherwise. *)
Fixpoint dict_set (d : dict) (k : string) (v : value) : dict :=
  match d with
  | [] => [(k, v)]
  | (k', v') :: d' =>
      if String.eqb k' k then (k', v) :: d' else (k', v') :: dict_set d' k v
  end.

Definition keys (d : dict) : list string := d.*1.

(** [k in d] *)
Definition has_key (d : dict) (k : string) : bool :=
  match dict_get d k with Some _ => true | None => false end.

(** [dict(pairs)]: later bindings of a key overwrite earlier ones. *)
Definition dict_of_pairs (l : dict) : dict :=
  fold_left (fun d kv => dict_set d kv.1 kv.2) l [].

End Py.

Import Py.

(** ** Strings *)

(** [s.startswith(p)] *)
Definition startswith (s p : string) : bool := String.prefix p s.

(** [needle in hay] on [str]: [needle] occurs as a contiguous substring. *)
Fixpoint str_contains (needle hay : string) : bool :=
  String.prefix needle hay ||
  match hay with
  | EmptyString => false
  | String _ hay' => str_contains needle hay'
  end.

(** [s[n:]] *)
Fixpoint str_drop (n : nat) (s : string) : string :=
  match n, s with
  | O, _ => s
  | S n', String _ s' => str_drop n' s'
  | S _, EmptyString => EmptyString
  end.

(** [str.isspace] on the code points below 256. *)
Definition is_space (c : ascii) : bool :=
  match c with
  | "009" | "010" | "011" | "012" | "013"
  | "028" | "029" | "030" | "031" | " " | "133" | "160" => true
  | _ => false
  end%char.

Fixpoint lstrip (s : string) : string :=
  match s with
  | String c s' => if is_space c then lstrip s' else s
  | EmptyString => EmptyString
  end.

(** [s.strip()] *)
Definition strip (s : string) : string :=
  String.rev (lstrip (String.rev (lstrip s))).

(** The lines a text-mode file object yields: universal newlines, so a line
    ends at a line feed, a carriage return, or the pair of them, and is
    yielded with a single line feed at its end; a last line without a
    terminator is yielded as it is. [cur] is the current line, reversed. *)
Fixpoint lines_go (cur : string) (s : string) : list string :=
  match s with
  | EmptyString =>
      match cur with EmptyString => [] | _ => [String.rev cur] end
  | String "010" s' => String.rev (String "010" cur) :: lines_go EmptyString s'
  | String "013" s' =>
      String.rev (String "010" cur) ::
      lines_go EmptyString
        (match s' with String "010" t => t | _ => s' end)
  | String c s' => lines_go (String c cur) s'
  end%char.

(** [for line in f] *)
Definition file_lines (text : string) : list string := lines_go EmptyString text.

(** ** Exceptions, the world, and the monad of the embedding *)

Inductive exn : Type :=
| FileNotFoundError
| IsADirectoryError
| JSONDecodeError
| UnpicklingError
| KeyError
| IndexError
| TypeError
| AttributeError.

Inductive node : Type :=
| Dir
| File (data : string).

(** What [Context.op_import_result] reports: one status per key considered,
    each with the fingerprint the engine found (or none). *)
Record import_status : Type := ImportStatus { fpr : option string }.
Record import_result : Type := ImportResult { imports : list import_status }.

(** One run of [op_import] followed by [op_import_result]: the import raised,
    or it went through and the result object is there or is [None]. *)
Inductive engine_reply : Type :=
| EngineError
| EngineDone (result : option import_result).

(** The response of [requests.get]. *)
Record response : Type := Response { status_code : Z; content : string }.

(** The entries of [self.paths] that the functions below read. *)
Record Paths : Type := MkPaths {
  signing_keys : gmap string string;
  mirrors_txt : list string;
  gnupg_homedir : string;
  settings_file : string;
  settings_file_pickle : string;
  tbb_start : string
}.

(** The attributes of a [Common] object. [settings] is [None] as long as the
    attribute has not been assigned. *)
Record Common : Type := MkCommon {
  tbl_version : string;
  architecture : string;
  default_mirror : string;
  paths : Paths;
  fingerprints : gmap string string;
  mirrors : list string;
  settings : option value
}.

(** The object, the files, the keys held in the GnuPG home directory, and
    what has been printed so far (oldest line first). *)
Record State : Type := MkState {
  self : Common;
  fs : gmap string node;
  keyring : list string;
  stdout : list string
}.

Definition with_self (f : Common -> Common) (s : State) : State :=
  MkState (f (self s)) (fs s) (keyring s) (stdout s).
Definition with_fs (f : gmap string node -> gmap string node) (s : State) : State :=
  MkState (self s) (f (fs s)) (keyring s) (stdout s).
Definition with_keyring (kr : list string) (s : State) : State :=
  MkState (self s) (fs s) kr (stdout s).
Definition printed (line : string) (s : State) : State :=
  MkState (self s) (fs s) (keyring s) (stdout s ++ [line]).

Definition set_mirrors (l : list string) (c : Common) : Common :=
  MkCommon (tbl_version c) (architecture c) (default_mirror c) (paths c)
           (fingerprints c) l (settings c).
Definition set_settings (v : value) (c : Common) : Common :=
  MkCommon (tbl_version c) (architecture c) (default_mirror c) (paths c)
           (fingerprints c) (mirrors c) (Some v).

Inductive outcome (A : Type) : Type :=
| Ret (a : A) (s : State)
| Raise (e : exn) (s : State).
Arguments Ret {A} a s.
Arguments Raise {A} e s.

Definition M (A : Type) : Type := State -> outcome A.

Definition ret {A} (a : A) : M A := fun s => Ret a s.
Definition raise {A} (e : exn) : M A := fun s => Raise e s.
Definition bind {A B} (m : M A) (k : A -> M B) : M B :=
  fun s => match m s with
           | Ret a s' => k a s'
           | Raise e s' => Raise e s'
           end.

Notation "'let*' x := m 'in' k" := (bind m (fun x => k))
  (at level 10, x name, m at level 100, k at level 200, only parsing).
Notation "m >> k" := (bind m (fun _ => k))
  (at level 100, k at level 200, right associativity, only parsing).

Definition get_self : M Common := fun s => Ret (self s) s.
Definition modify_self (f : Common -> Common) : M unit :=
  fun s => Ret tt (with_self f s).

(** [print(line)] *)
Definition print (line : string) : M unit := fun s => Ret tt (printed line s).

(** [d[k]] on a mapping, raising [KeyError] for an unbound key. *)
Definition subscript {V} (d : gmap string V) (k : string) : M V :=
  match d !! k with
  | Some v => ret v
  | None => raise KeyError
  end.

(** [open(p)] for reading, followed by reading the whole file. *)
Definition read_file (p : string) : M string :=
  fun s => match fs s !! p with
           | None => Raise FileNotFoundError s
           | Some Dir => Raise IsADirectoryError s
           | Some (File data) => Ret data s
           end.

(** [open(p, "w")], writing [data], closing. The directories of the layout
    are made by [mkdir_] when the object is initialised; a path that is a
    directory cannot be opened for writing. *)
Definition write_file (p : string) (data : string) : M unit :=
  fun s => match fs s !! p with
           | Some Dir => Raise IsADirectoryError s
           | _ => Ret tt (with_fs (insert p (File data)) s)
           end.

(** [Path.unlink] *)
Definition unlink (p : string) : M unit :=
  fun s => match fs s !! p with
           | None => Raise FileNotFoundError s
           | Some Dir => Raise IsADirectoryError s
           | Some (File _) => Ret tt (with_fs (delete p) s)
           end.

(** [Path.is_file] *)
Definition file_exists (files : gmap string node) (p : string) : bool :=
  match files !! p with
  | Some (File _) => true
  | _ => false
  end.

Definition is_file (p : string) : M bool :=
  fun s => Ret (file_exists (fs s) p) s.

(** ** The libraries the module calls *)

(** [json], [pickle], the iteration order of a [set] of strings, and the
    GnuPG engine behind [gpg.Context]. A codec returns [None] where the
    library raises its decoding error. The engine maps the keys held so far
    and the key material offered to its reply and the keys held afterwards. *)
Class Host : Type := MkHost {
  json_loads : string -> option value;
  json_dumps : value -> string;
  pickle_loads : string -> option value;
  set_iter : list string -> list string;
  set_iter_perm : forall l, set_iter l ≡ₚ l;
  gpg_import : list string -> string -> engine_reply * list string
}.

(** ** [build_paths] *)

(** The directories [build_paths] starts from: the module constant [SHARE]
    and the configuration, cache and data directories it resolves from the
    environment. *)
Record Bases : Type := MkBases {
  SHARE : string;
  tbb_config : string;
  tbb_cache : string;
  tbb_local : string
}.

(** [d / name] *)
Definition pjoin (d name : string) : string := d +:+ "/" +:+ name.

Definition tor_browser_developers_fingerprint : string :=
  "EF6E286DDA85EA2A4BA7DE684E2C6E8793298290".

(** [build_paths()] without a version: the layout, and the expected
    fingerprint of each key that can be imported. *)
Definition build_paths (b : Bases) (c : Common) : Common :=
  let tbb_dir := pjoin (pjoin (tbb_local b) "tbb") (architecture c) in
  MkCommon (tbl_version c) (architecture c) (default_mirror c)
    (MkPaths
       (<["wkd_tmp" := pjoin (tbb_cache b) "torbrowser.gpg"]>
          (<["tor_browser_developers" := pjoin (SHARE b) "tor-browser-developers.asc"]> ∅))
       [pjoin (SHARE b) "mirrors.txt"; pjoin (tbb_config b) "mirrors.txt"]
       (pjoin (tbb_local b) "gnupg_homedir")
       (pjoin (tbb_config b) "settings.json")
       (pjoin (tbb_config b) "settings")
       (pjoin tbb_dir "tor-browser/start-tor-browser.desktop"))
    (<["wkd_tmp" := tor_browser_developers_fingerprint]>
       (<["tor_browser_developers" := tor_browser_developers_fingerprint]> ∅))
    (mirrors c) (settings c).

(** The attribute assignments at the head of [__init__], up to and
    including its first call of [build_paths]. *)
Definition new_common (tbl_version arch : string) (b : Bases) : Common :=
  build_paths b
    (MkCommon tbl_version arch "https://dist.torproject.org/"
       (MkPaths ∅ [] EmptyString EmptyString EmptyString EmptyString) ∅ [] None).

(** ** Key import *)

Section Keys.
Context `{Host}.

(** The [try] block of [import_key_and_check_status]: [gpg.Data] opens the
    key file and [op_import] feeds it to the engine. Whatever either raises
    is caught by the bare [except]. *)
Definition op_import (impkey : string) : M engine_reply :=
  fun s => match fs s !! impkey with
           | Some (File data) =>
               let (reply, kr) := gpg_import (keyring s) data in
               Ret reply (with_keyring kr s)
           | _ => Ret EngineError s
           end.

(** [l[0]] *)
Definition first_item {A} (l : list A) : M A :=
  match l with
  | x :: _ => ret x
  | [] => raise IndexError
  end.

(** The right operand of [in] must be a container; [None] is not. *)
Definition as_container (o : option string) : M string :=
  match o with
  | Some str => ret str
  | None => raise TypeError
  end.

Definition import_key_and_check_status (key : string) : M bool :=
  let* c := get_self in
  let* impkey := subscript (signing_keys (paths c)) key in
  let* reply := op_import impkey in
  match reply with
  | EngineError => ret false
  | EngineDone None => ret false
  | EngineDone (Some result) =>
      let* expected := subscript (fingerprints c) key in
      let* first := first_item (imports result) in
      let* reported := as_container (fpr first) in
      if str_contains expected reported then ret true else ret false
  end.

Fixpoint import_keys_loop (keys : list string) (all_imports_succeeded : bool) : M bool :=
  match keys with
  | [] => ret all_imports_succeeded
  | key :: keys' =>
      let* imported := import_key_and_check_status key in
      if imported then import_keys_loop keys' all_imports_succeeded
      else
        let* c := get_self in
        let* expected := subscript (fingerprints c) key in
        print ("Could not import key with fingerprint: " +:+ expected +:+ ".") >>
        import_keys_loop keys' false
  end.

Definition import_keys : M bool :=
  let* all_imports_succeeded := import_keys_loop ["tor_browser_developers"] true in
  (if all_imports_succeeded then ret tt
   else print "Not all keys were imported successfully!") >>
  ret all_imports_succeeded.

End Keys.

(** ** The mirror list *)

(** [try: m except handled: pass] *)
Definition try_pass (m : M unit) (handled : exn -> bool) : M unit :=
  fun s => match m s with
           | Ret a s' => Ret a s'
           | Raise e s' => if handled e then Ret tt s' else Raise e s'
           end.

Definition is_FileNotFoundError (e : exn) : bool :=
  match e with FileNotFoundError => true | _ => false end.

(** [except (FileNotFoundError, IsADirectoryError)] *)
Definition is_missing (e : exn) : bool :=
  match e with FileNotFoundError | IsADirectoryError => true | _ => false end.

(** The body of [for mirror in f], run over the lines of one file. *)
Fixpoint add_mirrors (lines : list string) (mirrors : list string) : list string :=
  match lines with
  | [] => mirrors
  | line :: lines' =>
      let mirror := strip line in
      add_mirrors lines'
        (if bool_decide (mirror ∈ mirrors) then mirrors else mirrors ++ [mirror])
  end.

Definition read_mirrors (srcfile : string) : M unit :=
  let* text := read_file srcfile in
  modify_self (fun c => set_mirrors (add_mirrors (file_lines text) (mirrors c)) c).

Fixpoint load_mirrors_loop (srcfiles : list string) : M unit :=
  match srcfiles with
  | [] => ret tt
  | srcfile :: srcfiles' =>
      try_pass (read_mirrors srcfile) is_FileNotFoundError >>
      load_mirrors_loop srcfiles'
  end.

Definition load_mirrors : M unit :=
  modify_self (set_mirrors []) >>
  let* c := get_self in
  load_mirrors_loop (mirrors_txt (paths c)).

(** ** The settings store *)

Section Settings.
Context `{Host}.

Definition default_settings (c : Common) : dict :=
  [("tbl_version", VStr (tbl_version c));
   ("installed", VBool false);
   ("download_over_tor", VBool false);
   ("tor_socks_address", VStr "127.0.0.1:9050");
   ("mirror", VStr (default_mirror c))].

(** Reading an attribute that was never assigned raises. *)
Definition attribute {A} (o : option A) : M A :=
  match o with
  | Some a => ret a
  | None => raise AttributeError
  end.

(** [d[k]] on a Python dict. *)
Definition getitem (d : dict) (k : string) : M value :=
  match dict_get d k with
  | Some v => ret v
  | None => raise KeyError
  end.

(** [o[k] = v]: only a dict takes a string subscript. *)
Definition setitem (o : value) (k : string) (v : value) : M dict :=
  match o with
  | VDict d => ret (dict_set d k v)
  | _ => raise TypeError
  end.

(** Opening with mode ["w"] truncates the file before [json.dump] runs. *)
Definition save_settings : M bool :=
  let* c := get_self in
  write_file (settings_file (paths c)) EmptyString >>
  let* current := attribute (settings c) in
  write_file (settings_file (paths c)) (json_dumps current) >>
  ret true.

(** The [try] block at the head of [load_settings]. *)
Definition read_json_settings : M value :=
  let* c := get_self in
  let* text := read_file (settings_file (paths c)) in
  match json_loads text with
  | Some v => ret v
  | None => raise JSONDecodeError
  end.

(** [default_settings.keys() - settings.keys()], in the order in which the
    resulting set is iterated. *)
Definition missing_settings (defaults d : dict) : list string :=
  set_iter (filter (fun k => negb (has_key d k)) (keys defaults)).

Fixpoint backfill (defaults : dict) (missing : list string) (d : dict) : M dict :=
  match missing with
  | [] => ret d
  | setting :: missing' =>
      let* v := getitem defaults setting in
      backfill defaults missing' (dict_set d setting v)
  end.

(** Looking up [startswith] on [v]: only a [str] has the method. *)
Definition str_method (v : value) : M string :=
  match v with
  | VStr a => ret a
  | _ => raise AttributeError
  end.

(** [v != version] against a [str]. *)
Definition differs_from (v : value) (version : string) : bool :=
  match v with
  | VStr a => negb (String.eqb a version)
  | _ => true
  end.

(** The [else] block of the first [try]: the file held JSON. *)
Definition normalise_settings (loaded : value) : M unit :=
  let* c := get_self in
  let* installed := is_file (tbb_start (paths c)) in
  let* d := setitem loaded "installed" (VBool installed) in
  let missing := missing_settings (default_settings c) d in
  let* d := backfill (default_settings c) missing d in
  let resave := match missing with [] => false | _ => true end in
  let* addr := getitem d "tor_socks_address" in
  let* a := str_method addr in
  let tcp := startswith a "tcp:" in
  let d := if tcp then dict_set d "tor_socks_address" (VStr (str_drop 4 a)) else d in
  let resave := tcp || resave in
  let* version := getitem d "tbl_version" in
  let stale := differs_from version (tbl_version c) in
  let d := if stale then dict_set d "tbl_version" (VStr (tbl_version c)) else d in
  let resave := stale || resave in
  modify_self (set_settings (VDict d)) >>
  if resave then save_settings >> ret tt else ret tt.

(** The [try] block of the pickle conversion. *)
Definition read_pickle_settings : M unit :=
  let* c := get_self in
  let* data := read_file (settings_file_pickle (paths c)) in
  match pickle_loads data with
  | Some v => modify_self (set_settings v)
  | None => raise UnpicklingError
  end.

(** The tail of [load_settings]: no file of either format. *)
Definition install_defaults : M unit :=
  let* c := get_self in
  modify_self (set_settings (VDict (default_settings c))) >>
  save_settings >>
  ret tt.

(** [load_settings]. [fuel] bounds the depth of the self-call after a
    pickle conversion; [None] means the bound was reached. *)
Fixpoint load_settings (fuel : nat) (s : State) : option (outcome unit) :=
  match fuel with
  | O => None
  | S fuel' =>
      match read_json_settings s with
      | Ret loaded s1 => Some (normalise_settings loaded s1)
      | Raise e s1 =>
          if is_missing e then
            match read_pickle_settings s1 with
            | Ret _ s2 =>
                match (save_settings >>
                       let* c := get_self in
                       unlink (settings_file_pickle (paths c))) s2 with
                | Ret _ s3 => load_settings fuel' s3
                | Raise e3 s3 => Some (Raise e3 s3)
                end
            | Raise e2 s2 =>
                if is_missing e2 then Some (install_defaults s2)
                else Some (Raise e2 s2)
            end
          else Some (Raise e s1)
      end
  end.

End Settings.

(** ** A JSON codec for the settings fragment *)

(** [json.dumps] with its default separators and [ensure_ascii], and
    [json.loads], on the fragment of JSON that settings files are made of:
    [null], booleans, integers, strings, arrays and objects. Numbers with a
    fraction or an exponent and escapes of code points from 256 on are
    outside the fragment and are not accepted. The theorems below hold for
    every [Host]; this codec makes the scenarios executable. *)
Module Json.

Definition dq : ascii := "034"%char.
Definition bs : ascii := "092"%char.
Definition str1 (c : ascii) : string := String c EmptyString.

Definition hex_digit (n : N) : ascii :=
  ascii_of_N (if (n <? 10)%N then 48 + n else 87 + n)%N.

(** One character of a string, as [ensure_ascii] writes it. *)
Definition escape_char (c : ascii) : string :=
  let n := N_of_ascii c in
  if Ascii.eqb c dq then String bs (str1 dq)
  else if Ascii.eqb c bs then String bs (str1 bs)
  else if (n =? 10)%N then String bs "n"
  else if (n =? 13)%N then String bs "r"
  else if (n =? 9)%N then String bs "t"
  else if (n =? 8)%N then String bs "b"
  else if (n =? 12)%N then String bs "f"
  else if ((32 <=? n) && (n <=? 126))%N then str1 c
  else String bs ("u00" +:+ String (hex_digit (n / 16)) (str1 (hex_digit (n mod 16)))).

Fixpoint escape (s : string) : string :=
  match s with
  | EmptyString => EmptyString
  | String c s' => escape_char c +:+ escape s'
  end.

Definition quote (s : string) : string := String dq (escape s +:+ str1 dq).

Fixpoint join (sep : string) (l : list string) : string :=
  match l with
  | [] => EmptyString
  | [x] => x
  | x :: l' => x +:+ sep +:+ join sep l'
  end.

Fixpoint dumps (v : value) : string :=
  match v with
  | VNone => "null"
  | VBool true => "true"
  | VBool false => "false"
  | VInt z => pretty z
  | VStr s => quote s
  | VList l => "[" +:+ join ", " (map dumps l) +:+ "]"
  | VDict d =>
      "{" +:+
      join ", " (map (fun kv => match kv with
                                | (k, x) => quote k +:+ ": " +:+ dumps x
                                end) d) +:+
      "}"
  end.

Definition is_ws (c : ascii) : bool :=
  match c with
  | " " | "009" | "010" | "013" => true
  | _ => false
  end%char.

Fixpoint skip_ws (s : string) : string :=
  match s with
  | String c s' => if is_ws c then skip_ws s' else s
  | EmptyString => EmptyString
  end.

Definition hex_value (c : ascii) : option N :=
  let n := N_of_ascii c in
  if ((48 <=? n) && (n <=? 57))%N then Some (n - 48)%N
  else if ((97 <=? n) && (n <=? 102))%N then Some (n - 87)%N
  else if ((65 <=? n) && (n <=? 70))%N then Some (n - 55)%N
  else None.

Definition hex4 (a b c d : ascii) : option N :=
  match hex_value a, hex_value b, hex_value c, hex_value d with
  | Some x, Some y, Some z, Some w => Some (((x * 16 + y) * 16 + z) * 16 + w)%N
  | _, _, _, _ => None
  end.

(** The character a two-character escape stands for. *)
Definition unescape (e : ascii) : option ascii :=
  if Ascii.eqb e dq then Some dq
  else if Ascii.eqb e bs then Some bs
  else match e with
       | "/" => Some "/"
       | "b" => Some "008"
       | "f" => Some "012"
       | "n" => Some "010"
       | "r" => Some "013"
       | "t" => Some "009"
       | _ => None
       end%char.

(** The rest of a string literal after its opening quote; [acc] is what has
    been decoded, reversed. *)
Fixpoint parse_string (s : string) (acc : string) : option (string * string) :=
  match s with
  | EmptyString => None
  | String c s' =>
      if Ascii.eqb c dq then Some (String.rev acc, s')
      else if Ascii.eqb c bs then
        match s' with
        | String "u" (String h1 (String h2 (String h3 (String h4 t)))) =>
            match hex4 h1 h2 h3 h4 with
            | Some n =>
                if (n <? 256)%N then parse_string t (String (ascii_of_N n) acc)
                else None
            | None => None
            end
        | String e t =>
            match unescape e with
            | Some x => parse_string t (String x acc)
            | None => None
            end
        | EmptyString => None
        end
      else if (N_of_ascii c <? 32)%N then None
      else parse_string s' (String c acc)
  end.

Definition digit_value (c : ascii) : option Z :=
  let n := N_of_ascii c in
  if ((48 <=? n) && (n <=? 57))%N then Some (Z.of_N (n - 48)) else None.

Fixpoint parse_digits (s : string) (acc : Z) : Z * string :=
  match s with
  | String c s' =>
      match digit_value c with
      | Some x => parse_digits s' (acc * 10 + x)
      | None => (acc, s)
      end
  | EmptyString => (acc, s)
  end.

(** Integers are [0] or start with a non-zero digit; a fraction or an
    exponent after them makes a float. *)
Definition parse_nat (s : string) : option (Z * string) :=
  match s with
  | String c s' =>
      match digit_value c with
      | Some x =>
          let '(n, rest) := if (x =? 0) then (0, s') else parse_digits s' x in
          match rest with
          | String "." _ | String "e" _ | String "E" _ => None
          | _ => Some (n, rest)
          end
      | None => None
      end
  | EmptyString => None
  end.

Definition expect (word : string) (v : value) (s : string) : option (value * string) :=
  if String.prefix word s then Some (v, str_drop (String.length word) s) else None.

Fixpoint parse_items (fuel : nat) (elem : string -> option (value * string))
    (s : string) (acc : list value) : option (list value * string) :=
  match fuel with
  | O => None
  | S fuel' =>
      match elem s with
      | Some (v, r) =>
          match skip_ws r with
          | String "," r' => parse_items fuel' elem r' (v :: acc)
          | String "]" r' => Some (rev (v :: acc), r')
          | _ => None
          end
      | None => None
      end
  end.

Fixpoint parse_members (fuel : nat) (elem : string -> option (value * string))
    (s : string) (acc : dict) : option (dict * string) :=
  match fuel with
  | O => None
  | S fuel' =>
      match skip_ws s with
      | String c r =>
          if Ascii.eqb c dq then
            match parse_string r EmptyString with
            | Some (k, r1) =>
                match skip_ws r1 with
                | String ":" r2 =>
                    match elem r2 with
                    | Some (v, r3) =>
                        match skip_ws r3 with
                        | String "," r4 => parse_members fuel' elem r4 ((k, v) :: acc)
                        | String "}" r4 => Some (dict_of_pairs (rev ((k, v) :: acc)), r4)
                        | _ => None
                        end
                    | None => None
                    end
                | _ => None
                end
            | None => None
            end
          else None
      | EmptyString => None
      end
  end.

Fixpoint parse_value (fuel : nat) (s : string) : option (value * string) :=
  match fuel with
  | O => None
  | S fuel' =>
      match skip_ws s with
      | EmptyString => None
      | String c r as s0 =>
          if Ascii.eqb c dq then
            match parse_string r EmptyString with
            | Some (str, r') => Some (VStr str, r')
            | None => None
            end
          else
            match c with
            | "n" => expect "null" VNone s0
            | "t" => expect "true" (VBool true) s0
            | "f" => expect "false" (VBool false) s0
            | "-" =>
                match parse_nat r with
                | Some (n, r') => Some (VInt (- n), r')
                | None => None
                end
            | "[" =>
                match skip_ws r with
                | String "]" r' => Some (VList [], r')
                | _ =>
                    match parse_items fuel' (parse_value fuel') r [] with
                    | Some (l, r') => Some (VList l, r')
                    | None => None
                    end
                end
            | "{" =>
                match skip_ws r with
                | String "}" r' => Some (VDict [], r')
                | _ =>
                    match parse_members fuel' (parse_value fuel') r [] with
                    | Some (d, r') => Some (VDict d, r')
                    | None => None
                    end
                end
            | _ =>
                match parse_nat s0 with
                | Some (n, r') => Some (VInt n, r')
                | None => None
                end
            end%char
      end
  end.

(** [json.loads]: one value, then nothing but white space. [None] stands
    for [JSONDecodeError]. *)
Definition loads (s : string) : option value :=
  match parse_value (S (String.length s)) s with
  | Some (v, rest) =>
      match skip_ws rest with
      | EmptyString => Some v
      | _ => None
      end
  | None => None
  end.

End Json.

(** ** A concrete host and the states of the scenarios *)

Module Demo.

(** Key material for the scenarios: a file that starts with [key:] holds one
    key whose fingerprint is the rest of the file; the engine imports it
    and reports that fingerprint. An empty file makes the import raise.
    Anything else holds no key: the import goes through and the result
    lists no imported key. *)
Definition gpg_import (kr : list string) (data : string) : engine_reply * list string :=
  if String.eqb data EmptyString then (EngineError, kr)
  else if String.prefix "key:" data then
    (EngineDone (Some (ImportResult [ImportStatus (Some (str_drop 4 data))])),
     kr ++ [str_drop 4 data])
  else (EngineDone (Some (ImportResult [])), kr).

(** The record of the migration scenario and the bytes of its legacy file. *)
Definition legacy_settings : value :=
  VDict [("tbl_version", VStr "1.0.0");
         ("installed", VBool true);
         ("download_over_tor", VBool true);
         ("tor_socks_address", VStr "tcp:10.0.0.1:9050");
         ("mirror", VStr "https://example.org/")].

(** The same record after the second pass of [load_settings] under the
    running [version], with [installed] as found on disk. *)
Definition migrated (version : string) (installed : bool) : dict :=
  [("tbl_version", VStr version);
   ("installed", VBool installed);
   ("download_over_tor", VBool true);
   ("tor_socks_address", VStr "10.0.0.1:9050");
   ("mirror", VStr "https://example.org/")].

Definition legacy_pickle : string := "legacy-settings-pickle".

Definition pickle_loads (data : string) : option value :=
  if String.eqb data legacy_pickle then Some legacy_settings else None.

#[global] Instance host : Host :=
  MkHost Json.loads Json.dumps pickle_loads (@rev string)
         (fun l => Permutation_sym (Permutation_rev l)) gpg_import.

Definition bases : Bases :=
  MkBases "/usr/share/torbrowser-launcher"
          "/home/user/.config/torbrowser"
          "/home/user/.cache/torbrowser"
          "/home/user/.local/share/torbrowser".

Definition common : Common := new_common "1.2.3" "x86_64" bases.

(** A state with the given files, an empty keyring and nothing printed. *)
Definition state (files : list (string * node)) : State :=
  MkState common (list_to_map files) [] [].

(** The same with [self.settings] assigned, as [load_settings] leaves it
    on a fresh installation: the defaults. *)
Definition loaded (files : list (string * node)) : State :=
  with_self (set_settings (VDict (default_settings common))) (state files).

Definition wkd_tmp : string := "/home/user/.cache/torbrowser/torbrowser.gpg".
Definition settings_json : string := "/home/user/.config/torbrowser/settings.json".
Definition settings_pickle : string := "/home/user/.config/torbrowser/settings".
Definition start_desktop : string :=
  "/home/user/.local/share/torbrowser/tbb/x86_64/tor-browser/start-tor-browser.desktop".
Definition share_mirrors : string := "/usr/share/torbrowser-launcher/mirrors.txt".

Definition lf : string := String "010" EmptyString.

(** [s] between double quotes. *)
Definition quoted (s : string) : string := Json.str1 Json.dq +:+ s +:+ Json.str1 Json.dq.

End Demo.

(** ** The mirror list, in the words of the specification *)

(** Each distinct entry once, in the order of first occurrence: the head
    comes first, and what follows is the same selection from the tail with
    the head left out. *)
Fixpoint first_occurrences (l : list string) : list string :=
  match l with
  | [] => []
  | x :: l' => x :: filter (fun y => y <> x) (first_occurrences l')
  end.

(** The trimmed lines of the source files that exist, file after file. *)
Definition mirror_lines (files : gmap string node) (srcfiles : list string) : list string :=
  srcfiles ≫= (fun srcfile => match files !! srcfile with
                              | Some (File text) => strip <$> file_lines text
                              | _ => []
                              end).

(** ** [proxies] *)

Module PyStr.

Definition hex2 (n : N) : string :=
  String (Json.hex_digit (n / 16)) (String (Json.hex_digit (n mod 16)) EmptyString).

(** [str.isprintable] on one code point below 256. *)
Definition printable (c : ascii) : bool :=
  let n := N_of_ascii c in
  ((32 <=? n) && (n <=? 126) || (161 <=? n) && negb (n =? 173))%N.

Fixpoint contains_char (c : ascii) (s : string) : bool :=
  match s with
  | EmptyString => false
  | String c' s' => Ascii.eqb c c' || contains_char c s'
  end.

(** The quote [repr] puts around [s]: a double quote when [s] holds a
    single quote and no double quote, a single quote otherwise. *)
Definition repr_quote (s : string) : ascii :=
  if contains_char "039" s && negb (contains_char "034" s) then "034"%char
  else "039"%char.

Definition repr_char (q c : ascii) : string :=
  let n := N_of_ascii c in
  if Ascii.eqb c q || Ascii.eqb c "092" then String "092" (String c EmptyString)
  else if (n =? 9)%N then String "092" "t"
  else if (n =? 10)%N then String "092" "n"
  else if (n =? 13)%N then String "092" "r"
  else if printable c then String c EmptyString
  else String "092" (String "x" (hex2 n)).

Fixpoint repr_chars (q : ascii) (s : string) : string :=
  match s with
  | EmptyString => EmptyString
  | String c s' => repr_char q c +:+ repr_chars q s'
  end.

(** [repr(s)] of a [str] *)
Definition repr_str (s : string) : string :=
  let q := repr_quote s in
  String q (repr_chars q s +:+ String q EmptyString).

(** [repr(v)] *)
Fixpoint repr (v : value) : string :=
  match v with
  | VNone => "None"
  | VBool true => "True"
  | VBool false => "False"
  | VInt z => pretty z
  | VStr s => repr_str s
  | VList l => "[" +:+ Json.join ", " (map repr l) +:+ "]"
  | VDict d =>
      "{" +:+
      Json.join ", " (map (fun kv => match kv with
                                     | (k, x) => repr_str k +:+ ": " +:+ repr x
                                     end) d) +:+
      "}"
  end.

(** [str(v)], which is what an f-string puts in for [{v}]. *)
Definition str (v : value) : string :=
  match v with
  | VStr s => s
  | _ => repr v
  end.

(** [bool(v)] *)
Definition truth (v : value) : bool :=
  match v with
  | VNone => false
  | VBool b => b
  | VInt z => negb (z =? 0)
  | VStr s => negb (String.eqb s EmptyString)
  | VList l => match l with [] => false | _ => true end
  | VDict d => match d with [] => false | _ => true end
  end.

End PyStr.

(** [o[k]] for reading with a [str] subscript: a dict looks the key up, and
    every other object refuses the subscript. *)
Definition subscript_str (o : value) (k : string) : M value :=
  match o with
  | VDict d =>
      match dict_get d k with
      | Some v => ret v
      | None => raise KeyError
      end
  | _ => raise TypeError
  end.

(** [self.settings], which raises while the attribute is unassigned. *)
Definition get_settings : M value :=
  fun s => match settings (self s) with
           | Some v => Ret v s
           | None => Raise AttributeError s
           end.

Definition proxies : M value :=
  let* current := get_settings in
  let* download_over_tor := subscript_str current "download_over_tor" in
  if PyStr.truth download_over_tor then
    let* current := get_settings in
    let* tor_socks_address := subscript_str current "tor_socks_address" in
    let socks5_address := "socks5h://" +:+ PyStr.str tor_socks_address in
    ret (VDict [("https", VStr socks5_address); ("http", VStr socks5_address)])
  else ret VNone.

(** ** [refresh_keyring] *)

Section Refresh.
Context `{Host}.

(** [refresh_keyring], with [r] the response that [requests.get] returns.
    The argument [proxies=self.proxies()] is evaluated before the request
    is made, so whatever [proxies] raises leaves [refresh_keyring] after the
    first line has been printed. Both [return] statements are bare, so the
    caller receives [None]. *)
Definition refresh_keyring (r : response) : M value :=
  print "Downloading latest Tor Browser signing key..." >>
  let* proxies_argument := proxies in
  if negb (status_code r =? 200) then
    print ("Error fetching key, status code = " +:+ pretty (status_code r)) >>
    ret VNone
  else
    let* c := get_self in
    let* wkd_tmp := subscript (signing_keys (paths c)) "wkd_tmp" in
    write_file wkd_tmp (content r) >>
    let* imported := import_key_and_check_status "wkd_tmp" in
    print (if imported then "Key imported successfully"
           else "Key failed to import") >>
    ret VNone.

End Refresh.

(** ** [build_paths] with a version *)

(** The entries that [build_paths(tbb_version)] adds to [self.paths] for a
    version that is not empty. The two [Path] entries are, as in the layout,
    the parts joined by [/]: this is the path that [Path] builds when the
    version holds no [/], so that the file name is one component. *)
Record Download : Type := MkDownload {
  tarball_url : string;
  tarball_file : string;
  tarball_filename : string;
  sig_url : string;
  sig_filename : string;
  sig_file : string
}.

Definition download_paths (b : Bases) (c : Common) (tbb_version : string) : Download :=
  let arch := if String.eqb (architecture c) "x86_64" then "linux64" else "linux32" in
  let tarball_filename :=
    "tor-browser-" +:+ arch +:+ "-" +:+ tbb_version +:+ "_ALL.tar.xz" in
  let sig_filename := tarball_filename +:+ ".asc" in
  MkDownload
    ("torbrowser/" +:+ tbb_version +:+ "/" +:+ tarball_filename)
    (pjoin (pjoin (tbb_cache b) "download") tarball_filename)
    tarball_filename
    ("torbrowser/" +:+ tbb_version +:+ "/" +:+ tarball_filename +:+ ".asc")
    sig_filename
    (pjoin (pjoin (tbb_cache b) "download") sig_filename).

(** ** [gnupg_import_ok_pattern] *)

(** The regular expressions the pattern is made of, over bytes, and what a
    backtracking matcher can leave over of the subject after matching a
    prefix of it. *)
Module Re.

Inductive regex : Type :=
| Lit (l : string)
| Class (ranges : list (ascii * ascii))
| Seq (r1 r2 : regex)
| Alt (r1 r2 : regex)
| Opt (r : regex)
| Rep (n : nat) (r : regex).

(** [c] lies in one of the ranges of a character class. *)
Definition in_class (ranges : list (ascii * ascii)) (c : ascii) : bool :=
  existsb (fun range => (N_of_ascii range.1 <=? N_of_ascii c)%N &&
                        (N_of_ascii c <=? N_of_ascii range.2)%N) ranges.

Fixpoint all_in_class (ranges : list (ascii * ascii)) (s : string) : bool :=
  match s with
  | EmptyString => true
  | String c s' => in_class ranges c && all_in_class ranges s'
  end.

(** Every rest of [s] that a match of [r] at the start of [s] can leave. *)
Fixpoint run (r : regex) (s : string) : list string :=
  match r with
  | Lit l => if String.prefix l s then [str_drop (String.length l) s] else []
  | Class ranges =>
      match s with
      | String c s' => if in_class ranges c then [s'] else []
      | EmptyString => []
      end
  | Seq r1 r2 => run r1 s ≫= run r2
  | Alt r1 r2 => run r1 s ++ run r2 s
  | Opt r1 => run r1 s ++ [s]
  | Rep n r1 =>
      (fix rep (n : nat) (s : string) : list string :=
         match n with
         | O => [s]
         | S n' => run r1 s ≫= rep n'
         end) n s
  end.

(** [pattern.fullmatch(s)] finds a match. *)
Definition fullmatch (r : regex) (s : string) : bool :=
  bool_decide (EmptyString ∈ run r s).

End Re.

(** [(\[GNUPG\:\]) (IMPORT_OK) ([0-9]|[1]?[0-5]) ([A-F0-9]{40})]; the groups
    do not change what matches. *)
Definition gnupg_import_ok_pattern : Re.regex :=
  Re.Seq (Re.Lit "[GNUPG:]")
    (Re.Seq (Re.Lit " ")
       (Re.Seq (Re.Lit "IMPORT_OK")
          (Re.Seq (Re.Lit " ")
             (Re.Seq
                (Re.Alt (Re.Class [("0"%char, "9"%char)])
                   (Re.Seq (Re.Opt (Re.Class [("1"%char, "1"%char)]))
                      (Re.Class [("0"%char, "5"%char)])))
                (Re.Seq (Re.Lit " ")
                   (Re.Rep 40 (Re.Class [("A"%char, "F"%char); ("0"%char, "9"%char)]))))))).

(** * Theorems *)

(** ** Strings *)

Lemma app_cons (c : ascii) (s t : string) : String c s +:+ t = String c (s +:+ t).
Proof. reflexivity. Qed.

Lemma app_empty_l (t : string) : EmptyString +:+ t = t.
Proof. reflexivity. Qed.

Lemma app_empty_r (s : string) : s +:+ EmptyString = s.
Proof. induction s as [|c s IH]; [done|]. by rewrite app_cons, IH. Qed.

Lemma length_app (s t : string) :
  String.length (s +:+ t) = (String.length s + String.length t)%nat.
Proof. induction s as [|c s IH]; [done|]. rewrite app_cons. simpl. by rewrite IH. Qed.

Lemma prefix_spec (p s : string) :
  String.prefix p s = true <-> exists suf, s = p +:+ suf.
Proof.
  revert s. induction p as [|c p IH]; intros s.
  - split; [|by destruct s]. intros _. by exists s.
  - destruct s as [|c' s]; simpl.
    + split; [done|]. by intros [suf Hsuf].
    + destruct (ascii_dec c c') as [->|Hne].
      * rewrite IH. split; intros [suf Hsuf]; exists suf.
        -- by rewrite app_cons, <- Hsuf.
        -- rewrite app_cons in Hsuf. by simplify_eq.
      * split; [done|]. intros [suf Hsuf]. rewrite app_cons in Hsuf. by simplify_eq.
Qed.

Lemma str_contains_spec (needle hay : string) :
  str_contains needle hay = true <->
  exists pre suf, hay = pre +:+ needle +:+ suf.
Proof.
  induction hay as [|c hay IH]; cbn [str_contains].
  - rewrite orb_false_r, prefix_spec. split.
    + intros [suf Hsuf]. by exists EmptyString, suf.
    + intros (pre & suf & Heq). destruct pre; [by exists suf|done].
  - rewrite orb_true_iff, IH. split.
    + intros [Hp|(pre & suf & ->)].
      * apply prefix_spec in Hp as [suf Hsuf]. by exists EmptyString, suf.
      * by exists (String c pre), suf.
    + intros (pre & suf & Heq). destruct pre as [|c' pre].
      * left. apply prefix_spec. by exists suf.
      * right. rewrite app_cons in Heq. simplify_eq. by exists pre, suf.
Qed.

Lemma str_contains_refl (s : string) : str_contains s s = true.
Proof. apply str_contains_spec. exists EmptyString, EmptyString. by rewrite app_empty_l, app_empty_r. Qed.

(** Containment between strings of one length is equality. *)
Lemma str_contains_same_length (needle hay : string) :
  String.length hay = String.length needle ->
  str_contains needle hay = true -> hay = needle.
Proof.
  intros Hlen (pre & suf & ->)%str_contains_spec.
  rewrite !length_app in Hlen.
  destruct pre; [|simpl in Hlen; lia].
  destruct suf; [|simpl in Hlen; lia].
  by rewrite app_empty_l, app_empty_r.
Qed.

(** ** The monad *)

Lemma bind_Ret {A B} (m : M A) (k : A -> M B) (s s' : State) (a : A) :
  m s = Ret a s' -> bind m k s = k a s'.
Proof. unfold bind. by intros ->. Qed.

Lemma bind_Raise {A B} (m : M A) (k : A -> M B) (s s' : State) (e : exn) :
  m s = Raise e s' -> bind m k s = Raise e s'.
Proof. unfold bind. by intros ->. Qed.

Lemma subscript_Some {V} (d : gmap string V) (k : string) (v : V) (s : State) :
  d !! k = Some v -> subscript d k s = Ret v s.
Proof. unfold subscript. by intros ->. Qed.

Lemma write_file_ok (p data : string) (s : State) :
  fs s !! p <> Some Dir ->
  write_file p data s = Ret tt (with_fs (insert p (File data)) s).
Proof. unfold write_file. by destruct (fs s !! p) as [[|?]|]. Qed.

(** One step of a computation whose head is a [bind] of a call that
    returns. *)
Ltac step_with tac := erewrite bind_Ret by tac.
Ltac step := step_with ltac:(first [reflexivity | eassumption]).

(** ** Key import *)

Section KeyTheorems.
Context `{Host}.

(** When the engine imports and reports a fingerprint for the first key,
    the verdict is the containment test and only the keyring has changed. *)
Lemma import_key_verdict (s : State) (key impkey data expected reported : string)
    (result : import_result) (first : import_status) (rest : list import_status)
    (kr : list string) :
  signing_keys (paths (self s)) !! key = Some impkey ->
  fingerprints (self s) !! key = Some expected ->
  fs s !! impkey = Some (File data) ->
  gpg_import (keyring s) data = (EngineDone (Some result), kr) ->
  imports result = first :: rest ->
  fpr first = Some reported ->
  import_key_and_check_status key s
  = Ret (str_contains expected reported) (with_keyring kr s).
Proof.
  intros Hpath Hfp Hfile Hgpg Himports Hfpr.
  unfold import_key_and_check_status, bind, get_self, subscript, op_import.
  rewrite Hpath. unfold ret at 1. rewrite Hfile, Hgpg.
  cbn [with_keyring self]. rewrite Hfp. unfold ret at 1.
  rewrite Himports. cbn [first_item]. unfold ret at 1.
  rewrite Hfpr. cbn [as_container]. unfold ret at 1.
  by destruct (str_contains expected reported).
Qed.

(** Whatever makes the [try] block raise, and an absent result object,
    give [False] and leave the object and the files as they were. *)
Lemma import_key_engine_error (s : State) (key impkey data : string) (kr : list string) :
  signing_keys (paths (self s)) !! key = Some impkey ->
  fs s !! impkey = Some (File data) ->
  gpg_import (keyring s) data = (EngineError, kr) \/
  gpg_import (keyring s) data = (EngineDone None, kr) ->
  import_key_and_check_status key s = Ret false (with_keyring kr s).
Proof.
  intros Hpath Hfile Hgpg.
  unfold import_key_and_check_status, bind, get_self, subscript, op_import.
  rewrite Hpath. unfold ret at 1. rewrite Hfile.
  by destruct Hgpg as [-> | ->].
Qed.

(** The missed case: the import went through, the result object is there,
    and its list of imports is empty. *)
Lemma import_key_no_imports (s : State) (key impkey data expected : string)
    (result : import_result) (kr : list string) :
  signing_keys (paths (self s)) !! key = Some impkey ->
  fingerprints (self s) !! key = Some expected ->
  fs s !! impkey = Some (File data) ->
  gpg_import (keyring s) data = (EngineDone (Some result), kr) ->
  imports result = [] ->
  import_key_and_check_status key s = Raise IndexError (with_keyring kr s).
Proof.
  intros Hpath Hfp Hfile Hgpg Himports.
  unfold import_key_and_check_status, bind, get_self, subscript, op_import.
  rewrite Hpath. unfold ret at 1. rewrite Hfile, Hgpg.
  cbn [with_keyring self]. rewrite Hfp. unfold ret at 1.
  by rewrite Himports.
Qed.

(** C1 (as amended): with the engine's import done and a fingerprint
    reported for the first imported key, [import_key_and_check_status]
    returns [True] exactly when the reported fingerprint contains the
    registry's expected fingerprint as a contiguous substring. An equal
    fingerprint is therefore accepted, a fingerprint of the same length is
    accepted only if it is equal, and a fingerprint in which the expected
    one does not occur is refused although the engine imported the key. *)
Theorem import_key_accepts_containing_fingerprint
    (s : State) (key impkey data expected reported : string)
    (result : import_result) (first : import_status) (rest : list import_status)
    (kr : list string) :
  signing_keys (paths (self s)) !! key = Some impkey ->
  fingerprints (self s) !! key = Some expected ->
  fs s !! impkey = Some (File data) ->
  gpg_import (keyring s) data = (EngineDone (Some result), kr) ->
  imports result = first :: rest ->
  fpr first = Some reported ->
  exists verdict : bool,
    import_key_and_check_status key s = Ret verdict (with_keyring kr s) /\
    (verdict = true <-> exists pre suf, reported = pre +:+ expected +:+ suf) /\
    (reported = expected -> verdict = true) /\
    (String.length reported = String.length expected ->
     verdict = true -> reported = expected).
Proof.
  intros Hpath Hfp Hfile Hgpg Himports Hfpr.
  exists (str_contains expected reported). split_and!.
  - eapply import_key_verdict; eauto.
  - apply str_contains_spec.
  - intros ->. apply str_contains_refl.
  - apply str_contains_same_length.
Qed.

End KeyTheorems.

(** C1, witness: the discovery key file holds a key with the pinned
    fingerprint. *)
Lemma import_key_accepts_containing_fingerprint_witness :
  let pinned := "EF6E286DDA85EA2A4BA7DE684E2C6E8793298290" in
  let s := Demo.state [(Demo.wkd_tmp, File ("key:" +:+ pinned))] in
  exists verdict : bool,
    import_key_and_check_status "wkd_tmp" s
    = Ret verdict (with_keyring [pinned] s) /\
    (verdict = true <-> exists pre suf, pinned = pre +:+ pinned +:+ suf) /\
    (pinned = pinned -> verdict = true) /\
    (String.length pinned = String.length pinned -> verdict = true -> pinned = pinned).
Proof.
  intros pinned s.
  apply (import_key_accepts_containing_fingerprint s "wkd_tmp" Demo.wkd_tmp
           ("key:" +:+ pinned) pinned pinned
           (ImportResult [ImportStatus (Some pinned)])
           (ImportStatus (Some pinned)) [] [pinned]);
    reflexivity.
Defined.

(** C1, counterexample: the engine imports a key and reports a fingerprint
    that has the expected fingerprint as a proper suffix. The import is
    accepted although the two fingerprints are not equal. *)
Lemma import_key_exact_match_counterexample :
  let expected := "EF6E286DDA85EA2A4BA7DE684E2C6E8793298290" in
  let reported := "00EF6E286DDA85EA2A4BA7DE684E2C6E8793298290" in
  let s := Demo.state [(Demo.wkd_tmp, File ("key:" +:+ reported))] in
  fingerprints (self s) !! "wkd_tmp" = Some expected /\
  gpg_import (keyring s) ("key:" +:+ reported)
  = (EngineDone (Some (ImportResult [ImportStatus (Some reported)])), [reported]) /\
  import_key_and_check_status "wkd_tmp" s = Ret true (with_keyring [reported] s) /\
  reported <> expected.
Proof. split_and!; [reflexivity .. | discriminate]. Qed.

(** C2 (the code at the failing input): the key file holds no key, the
    engine's import goes through and its result lists no imported key.
    [result.imports[0]] then raises [IndexError], which leaves
    [import_key_and_check_status] where a [False] was due. *)
Theorem import_key_empty_imports_raises :
  let s := Demo.state [(Demo.wkd_tmp, File "<html>not a key</html>")] in
  gpg_import (keyring s) "<html>not a key</html>"
  = (EngineDone (Some (ImportResult [])), []) /\
  import_key_and_check_status "wkd_tmp" s = Raise IndexError s.
Proof. split; reflexivity. Qed.

(** ** The fingerprint registry *)

Section RegistryTheorems.
Context `{Host}.

(** C10 (as amended): [build_paths] maps both key names,
    [tor_browser_developers] and [wkd_tmp], to the one pinned fingerprint of
    40 characters. Hence a key imported under either name, the refreshed
    one included, meets the same test: it is accepted exactly when the
    fingerprint the engine reports contains the pinned fingerprint, which
    for a reported fingerprint of 40 characters means that it is equal. *)
Theorem registry_pins_one_fingerprint
    (b : Bases) (c : Common) (s : State) (key impkey data reported : string)
    (result : import_result) (first : import_status) (rest : list import_status)
    (kr : list string) :
  self s = build_paths b c ->
  key = "tor_browser_developers" \/ key = "wkd_tmp" ->
  signing_keys (paths (self s)) !! key = Some impkey ->
  fs s !! impkey = Some (File data) ->
  gpg_import (keyring s) data = (EngineDone (Some result), kr) ->
  imports result = first :: rest ->
  fpr first = Some reported ->
  fingerprints (self s) !! "tor_browser_developers"
  = Some "EF6E286DDA85EA2A4BA7DE684E2C6E8793298290" /\
  fingerprints (self s) !! "wkd_tmp"
  = Some "EF6E286DDA85EA2A4BA7DE684E2C6E8793298290" /\
  import_key_and_check_status key s
  = Ret (str_contains "EF6E286DDA85EA2A4BA7DE684E2C6E8793298290" reported)
        (with_keyring kr s) /\
  (String.length reported = 40%nat ->
   str_contains "EF6E286DDA85EA2A4BA7DE684E2C6E8793298290" reported = true <->
   reported = "EF6E286DDA85EA2A4BA7DE684E2C6E8793298290").
Proof.
  intros Hself Hkey Hpath Hfile Hgpg Himports Hfpr.
  assert (Hdev : fingerprints (self s) !! "tor_browser_developers"
                 = Some tor_browser_developers_fingerprint).
  { rewrite Hself. cbn [build_paths fingerprints].
    by rewrite lookup_insert_ne, lookup_insert_eq. }
  assert (Hwkd : fingerprints (self s) !! "wkd_tmp"
                 = Some tor_browser_developers_fingerprint).
  { rewrite Hself. cbn [build_paths fingerprints]. by rewrite lookup_insert_eq. }
  split_and!; [done | done | |].
  - eapply import_key_verdict; eauto. by destruct Hkey as [-> | ->].
  - intros Hlen. split.
    + by apply str_contains_same_length.
    + intros ->. apply str_contains_refl.
Qed.

End RegistryTheorems.

(** C10, witness: the state that [refresh_keyring] has reached when it
    imports, with the fetched file holding the pinned key; the key name is
    [wkd_tmp]. *)
Lemma registry_pins_one_fingerprint_witness :
  let pinned := "EF6E286DDA85EA2A4BA7DE684E2C6E8793298290" in
  let s := with_fs (insert Demo.wkd_tmp (File ("key:" +:+ pinned)))
             (printed "Downloading latest Tor Browser signing key..."
                (Demo.loaded [])) in
  fingerprints (self s) !! "tor_browser_developers" = Some pinned /\
  fingerprints (self s) !! "wkd_tmp" = Some pinned /\
  import_key_and_check_status "wkd_tmp" s
  = Ret (str_contains pinned pinned) (with_keyring [pinned] s) /\
  (String.length pinned = 40%nat ->
   str_contains pinned pinned = true <-> pinned = pinned).
Proof.
  intros pinned s.
  apply (registry_pins_one_fingerprint Demo.bases
           (MkCommon "1.2.3" "x86_64" "https://dist.torproject.org/"
              (MkPaths ∅ [] EmptyString EmptyString EmptyString EmptyString) ∅ []
              (Some (VDict (default_settings Demo.common))))
           s "wkd_tmp" Demo.wkd_tmp ("key:" +:+ pinned) pinned
           (ImportResult [ImportStatus (Some pinned)])
           (ImportStatus (Some pinned)) [] [pinned]);
    first [ reflexivity | by right ].
Defined.

(** C10, counterexample: the settings are loaded, and the discovery
    endpoint serves a key for which the engine reports the pinned
    fingerprint followed by two more digits. [refresh_keyring] imports it
    and announces the import as successful although the fingerprint is not
    the pinned one. *)
Lemma refreshed_key_same_fingerprint_counterexample :
  let pinned := "EF6E286DDA85EA2A4BA7DE684E2C6E8793298290" in
  let reported := "EF6E286DDA85EA2A4BA7DE684E2C6E8793298290FF" in
  let s := Demo.loaded [] in
  proxies s = Ret VNone s /\
  fingerprints (self s) !! "wkd_tmp" = Some pinned /\
  refresh_keyring (Response 200 ("key:" +:+ reported)) s
  = Ret VNone
      (printed "Key imported successfully"
         (with_keyring [reported]
            (with_fs (insert Demo.wkd_tmp (File ("key:" +:+ reported)))
               (printed "Downloading latest Tor Browser signing key..." s)))) /\
  reported <> pinned.
Proof. split_and!; [reflexivity .. | discriminate]. Qed.

(** ** Key refresh *)


(** Its outcome depends on the object alone. *)
Lemma proxies_self (s1 s2 : State) :
  self s1 = self s2 ->
  proxies s1 = match proxies s2 with
               | Ret p _ => Ret p s1
               | Raise e _ => Raise e s1
               end.
Proof.
  intros Hself. unfold proxies, bind, get_settings. rewrite Hself.
  destruct (settings (self s2)) as [current|] eqn:Hsettings; [|done].
  destruct current as [| | | | |d]; try done.
  cbn [subscript_str].
  destruct (dict_get d "download_over_tor") as [over|]; [|done].
  unfold ret. destruct (PyStr.truth over); [|done].
  rewrite Hself, Hsettings. cbn [subscript_str].
  by destruct (dict_get d "tor_socks_address").
Qed.

Section RefreshTheorems.
Context `{Host}.

(** The head of [refresh_keyring]: the first line is printed and the
    argument of the request is evaluated. *)
Lemma refresh_keyring_proxies_raise (s s1 : State) (r : response) (e : exn) :
  proxies s = Raise e s1 ->
  refresh_keyring r s
  = Raise e (printed "Downloading latest Tor Browser signing key..." s).
Proof.
  intros Hproxies. unfold refresh_keyring. step.
  erewrite bind_Raise; [reflexivity|].
  rewrite (proxies_self _ s) by reflexivity. by rewrite Hproxies.
Qed.

Lemma proxies_printed (s s1 : State) (p : value) (line : string) :
  proxies s = Ret p s1 -> proxies (printed line s) = Ret p (printed line s).
Proof.
  intros Hproxies. rewrite (proxies_self _ s) by reflexivity. by rewrite Hproxies.
Qed.

(** C3 (as amended): [refresh_keyring] evaluates [self.proxies()] before the
    request; what that raises leaves [refresh_keyring] after the first line
    has been printed. When it returns: on a status other than 200
    [refresh_keyring] prints the error and returns [None], with the object,
    the files and the keyring as they were. On status 200 it writes the
    body to the [wkd_tmp] file, runs [import_key_and_check_status] on it
    and prints which way the import went; its own return value is [None]
    whatever the import returned. *)
Theorem refresh_keyring_returns_none (s : State) (r : response) :
  (forall (e : exn) (s1 : State),
     proxies s = Raise e s1 ->
     refresh_keyring r s
     = Raise e (printed "Downloading latest Tor Browser signing key..." s)) /\
  (forall (p : value) (s1 : State),
     proxies s = Ret p s1 ->
     (status_code r <> 200 ->
      exists s',
        refresh_keyring r s = Ret VNone s' /\
        self s' = self s /\ fs s' = fs s /\ keyring s' = keyring s /\
        stdout s' = stdout s ++
          ["Downloading latest Tor Browser signing key...";
           "Error fetching key, status code = " +:+ pretty (status_code r)]) /\
     (status_code r = 200 ->
      forall wkd_tmp : string,
        signing_keys (paths (self s)) !! "wkd_tmp" = Some wkd_tmp ->
        fs s !! wkd_tmp <> Some Dir ->
        match import_key_and_check_status "wkd_tmp"
                (with_fs (insert wkd_tmp (File (content r)))
                   (printed "Downloading latest Tor Browser signing key..." s)) with
        | Ret imported s2 =>
            refresh_keyring r s
            = Ret VNone (printed (if imported then "Key imported successfully"
                                  else "Key failed to import") s2)
        | Raise e s2 => refresh_keyring r s = Raise e s2
        end)).
Proof.
  split; [intros e s1; apply refresh_keyring_proxies_raise|].
  intros p s1 Hproxies. split.
  - intros Hstatus.
    exists (printed ("Error fetching key, status code = " +:+ pretty (status_code r))
              (printed "Downloading latest Tor Browser signing key..." s)).
    split_and!.
    + unfold refresh_keyring. step.
      step_with ltac:(by eapply proxies_printed).
      destruct (Z.eqb_spec (status_code r) 200) as [?|_]; [done|].
      cbn [negb]. reflexivity.
    + reflexivity.
    + reflexivity.
    + reflexivity.
    + cbn [printed stdout]. by rewrite <- app_assoc.
  - intros Hstatus wkd_tmp Hpath Hnodir.
    unfold refresh_keyring. step.
    step_with ltac:(by eapply proxies_printed).
    rewrite Hstatus. change (negb (200 =? 200)) with false. cbv iota.
    step. step_with ltac:(by apply subscript_Some).
    step_with ltac:(by apply write_file_ok).
    destruct (import_key_and_check_status "wkd_tmp" _) as [imported s2|e s2] eqn:Himp.
    + step. by step.
    + by erewrite bind_Raise by eassumption.
Qed.

End RefreshTheorems.

(** C3, witness: with the settings not yet loaded [self.proxies()] raises;
    with them loaded, a response with status 404, and one with status 200
    that carries the pinned key. *)
Lemma refresh_keyring_returns_none_witness :
  let bare := Demo.state [] in
  let s := Demo.loaded [] in
  let r := Response 200 ("key:" +:+ tor_browser_developers_fingerprint) in
  refresh_keyring r bare
  = Raise AttributeError (printed "Downloading latest Tor Browser signing key..." bare) /\
  (exists s',
     refresh_keyring (Response 404 "Not Found") s = Ret VNone s' /\
     self s' = self s /\ fs s' = fs s /\ keyring s' = keyring s /\
     stdout s' = stdout s ++
       ["Downloading latest Tor Browser signing key...";
        "Error fetching key, status code = " +:+ pretty 404]) /\
  match import_key_and_check_status "wkd_tmp"
          (with_fs (insert Demo.wkd_tmp (File (content r)))
             (printed "Downloading latest Tor Browser signing key..." s)) with
  | Ret imported s2 =>
      refresh_keyring r s
      = Ret VNone (printed (if imported then "Key imported successfully"
                            else "Key failed to import") s2)
  | Raise e s2 => refresh_keyring r s = Raise e s2
  end.
Proof.
  intros bare s r. split_and!.
  - apply (proj1 (refresh_keyring_returns_none bare r) AttributeError bare).
    reflexivity.
  - apply (proj1 (proj2 (refresh_keyring_returns_none s (Response 404 "Not Found"))
                    VNone s eq_refl)).
    discriminate.
  - apply (proj2 (proj2 (refresh_keyring_returns_none s r) VNone s eq_refl)
             eq_refl Demo.wkd_tmp).
    + reflexivity.
    + discriminate.
Defined.

(** C3, counterexample: the settings are loaded, the endpoint answers 200
    with the pinned key, the import of the written file returns [True], and
    [refresh_keyring] returns [None], not that outcome. *)
Lemma refresh_keyring_import_outcome_counterexample :
  let pinned := "EF6E286DDA85EA2A4BA7DE684E2C6E8793298290" in
  let r := Response 200 ("key:" +:+ pinned) in
  let s := Demo.loaded [] in
  let written := with_fs (insert Demo.wkd_tmp (File (content r)))
                   (printed "Downloading latest Tor Browser signing key..." s) in
  proxies s = Ret VNone s /\
  import_key_and_check_status "wkd_tmp" written
  = Ret true (with_keyring [pinned] written) /\
  refresh_keyring r s
  = Ret VNone (printed "Key imported successfully" (with_keyring [pinned] written)) /\
  VNone <> VBool true.
Proof. split_and!; [reflexivity .. | discriminate]. Qed.

(** ** The mirror list *)

(** The loop of [load_mirrors] over lines that are already trimmed. *)
Lemma add_mirrors_app (l1 l2 acc : list string) :
  add_mirrors (l1 ++ l2) acc = add_mirrors l2 (add_mirrors l1 acc).
Proof. revert acc. induction l1 as [|x l1 IH]; intros acc; [done|]. apply IH. Qed.

Lemma filter_first_occurrences (P : string -> Prop) `{!forall x, Decision (P x)}
    (l : list string) :
  filter P (first_occurrences l) = first_occurrences (filter P l).
Proof.
  induction l as [|x l IH]; [done|]. cbn [first_occurrences].
  destruct (decide (P x)) as [HP|HP].
  - rewrite !filter_cons_True by done. cbn [first_occurrences]. f_equal.
    rewrite <- IH, !list_filter_filter. apply list_filter_iff. tauto.
  - rewrite !filter_cons_False by done. rewrite <- IH, list_filter_filter.
    apply list_filter_iff. intros y. split; [tauto|].
    intros Hy. split; [done|]. by intros ->.
Qed.

Lemma add_mirrors_first_occurrences (lines acc : list string) :
  add_mirrors lines acc
  = acc ++ first_occurrences (filter (fun x => x ∉ acc) (strip <$> lines)).
Proof.
  revert acc. induction lines as [|line lines IH]; intros acc.
  - by rewrite app_nil_r.
  - cbn [add_mirrors]. rewrite fmap_cons. case_bool_decide as Hin.
    + rewrite IH. by rewrite filter_cons_False by tauto.
    + rewrite IH, filter_cons_True by done. cbn [first_occurrences].
      rewrite <- app_assoc. cbn [app]. do 2 f_equal.
      rewrite filter_first_occurrences, list_filter_filter. f_equal.
      apply list_filter_iff. intros y.
      rewrite elem_of_app, list_elem_of_singleton. tauto.
Qed.

Lemma filter_not_elem_of_nil (l : list string) :
  filter (fun x => x ∉ @nil string) l = l.
Proof.
  induction l as [|x l IH]; [done|].
  rewrite filter_cons_True by apply not_elem_of_nil. by rewrite IH.
Qed.

Lemma first_occurrences_elem_of (l : list string) (x : string) :
  x ∈ first_occurrences l <-> x ∈ l.
Proof.
  induction l as [|y l IH]; [done|]. cbn [first_occurrences].
  rewrite !elem_of_cons, list_elem_of_filter, IH.
  destruct (decide (x = y)); tauto.
Qed.

Lemma first_occurrences_NoDup (l : list string) : NoDup (first_occurrences l).
Proof.
  induction l as [|y l IH]; [constructor|]. cbn [first_occurrences].
  apply NoDup_cons. split.
  - rewrite list_elem_of_filter. tauto.
  - by apply NoDup_filter.
Qed.

Lemma load_mirrors_loop_spec (srcfiles : list string) (s : State) :
  Forall (fun srcfile => fs s !! srcfile <> Some Dir) srcfiles ->
  load_mirrors_loop srcfiles s
  = Ret tt (with_self
              (set_mirrors
                 (add_mirrors (srcfiles ≫= (fun srcfile =>
                    match fs s !! srcfile with
                    | Some (File text) => file_lines text
                    | _ => []
                    end)) (mirrors (self s)))) s).
Proof.
  revert s. induction srcfiles as [|srcfile srcfiles IH]; intros s Hfiles.
  - by destruct s as [[] ? ? ?].
  - apply Forall_cons in Hfiles as [Hfile Hfiles]. cbn [load_mirrors_loop].
    rewrite bind_cons, add_mirrors_app.
    unfold try_pass, read_mirrors, read_file, bind at 1 2.
    destruct (fs s !! srcfile) as [[|text]|] eqn:Hnode; [done | |].
    + cbn [modify_self is_FileNotFoundError]. by rewrite IH.
    + cbn [is_FileNotFoundError]. rewrite IH by done.
      by destruct s as [[] ? ? ?].
Qed.

Lemma mirror_lines_fmap (files : gmap string node) (srcfiles : list string) :
  strip <$> (srcfiles ≫= (fun srcfile =>
               match files !! srcfile with
               | Some (File text) => file_lines text
               | _ => []
               end))
  = mirror_lines files srcfiles.
Proof.
  unfold mirror_lines. induction srcfiles as [|p l IH]; [done|].
  rewrite !bind_cons, fmap_app, IH. f_equal.
  by destruct (files !! p) as [[|?]|].
Qed.

(** C5 (as amended): when no source is a directory, [load_mirrors] ends
    without an exception and leaves in [mirrors] each distinct trimmed line
    of the files that exist exactly once, in the order of first occurrence
    across the files in the given order. A missing file contributes
    nothing. A line that is empty after trimming is a line like any other:
    it contributes the empty string. *)
Theorem load_mirrors_first_occurrences (s : State) :
  Forall (fun srcfile => fs s !! srcfile <> Some Dir)
         (mirrors_txt (paths (self s))) ->
  let lines := mirror_lines (fs s) (mirrors_txt (paths (self s))) in
  load_mirrors s
  = Ret tt (with_self (set_mirrors (first_occurrences lines)) s) /\
  NoDup (first_occurrences lines) /\
  (forall x, x ∈ first_occurrences lines <-> x ∈ lines) /\
  (forall srcfile, fs s !! srcfile = None -> mirror_lines (fs s) [srcfile] = []).
Proof.
  intros Hfiles lines. split_and!.
  - unfold load_mirrors. step. step.
    rewrite load_mirrors_loop_spec by done.
    cbn [with_self self fs set_mirrors mirrors paths].
    by rewrite add_mirrors_first_occurrences, filter_not_elem_of_nil,
      mirror_lines_fmap.
  - apply first_occurrences_NoDup.
  - apply first_occurrences_elem_of.
  - intros srcfile Hnone. unfold mirror_lines. cbn. by rewrite Hnone.
Qed.

(** C5, witness: the packaged list has two entries, one of them twice, and
    there is no override file. *)
Lemma load_mirrors_first_occurrences_witness :
  let s := Demo.state
             [(Demo.share_mirrors,
               File ("https://a.example/" +:+ Demo.lf +:+ " https://b.example/ " +:+
                     Demo.lf +:+ "https://a.example/" +:+ Demo.lf))] in
  let lines := mirror_lines (fs s) (mirrors_txt (paths (self s))) in
  load_mirrors s
  = Ret tt (with_self (set_mirrors (first_occurrences lines)) s) /\
  NoDup (first_occurrences lines) /\
  (forall x, x ∈ first_occurrences lines <-> x ∈ lines) /\
  (forall srcfile, fs s !! srcfile = None -> mirror_lines (fs s) [srcfile] = []).
Proof.
  intros s. apply (load_mirrors_first_occurrences s).
  repeat constructor; discriminate.
Defined.

(** C5, counterexample: the packaged list has an empty line between two
    entries. The empty string becomes a mirror. *)
Lemma load_mirrors_empty_line_counterexample :
  let s := Demo.state
             [(Demo.share_mirrors,
               File ("a" +:+ Demo.lf +:+ Demo.lf +:+ "b" +:+ Demo.lf))] in
  load_mirrors s = Ret tt (with_self (set_mirrors ["a"; EmptyString; "b"]) s) /\
  EmptyString ∈ ["a"; EmptyString; "b"].
Proof. split; [reflexivity | by apply list_elem_of_In; right; left]. Qed.

(** ** Python dicts *)

Lemma dict_get_set_eq (d : dict) (k : string) (v : value) :
  dict_get (dict_set d k v) k = Some v.
Proof.
  induction d as [|[k' v'] d IH]; cbn [dict_set dict_get].
  - by rewrite String.eqb_refl.
  - destruct (String.eqb k' k) eqn:Hk; cbn [dict_get]; by rewrite Hk.
Qed.

Lemma dict_get_set_ne (d : dict) (k k' : string) (v : value) :
  k <> k' -> dict_get (dict_set d k v) k' = dict_get d k'.
Proof.
  intros Hne. induction d as [|[k0 v0] d IH]; cbn [dict_set dict_get].
  - by apply String.eqb_neq in Hne as ->.
  - destruct (String.eqb_spec k0 k) as [->|Hk0]; cbn [dict_get]; [|by rewrite IH].
    by apply String.eqb_neq in Hne as ->.
Qed.

Lemma dict_get_set (d : dict) (k k' : string) (v : value) :
  dict_get (dict_set d k v) k' = if decide (k = k') then Some v else dict_get d k'.
Proof.
  case_decide as Hk; [subst; apply dict_get_set_eq | by apply dict_get_set_ne].
Qed.

Lemma dict_get_keys (d : dict) (k : string) :
  k ∈ keys d <-> is_Some (dict_get d k).
Proof.
  unfold keys. induction d as [|[k' v'] d IH]; cbn [dict_get fmap list_fmap fst].
  - rewrite elem_of_nil. split; [done|]. by intros [? ?].
  - rewrite elem_of_cons, IH. destruct (String.eqb_spec k' k) as [->|Hne].
    + split; eauto.
    + split; [|tauto]. intros [->|?]; done.
Qed.

(** ** The monad, read backwards *)

Lemma bind_inv {A B} (m : M A) (k : A -> M B) (s s' : State) (b : B) :
  bind m k s = Ret b s' -> exists a s1, m s = Ret a s1 /\ k a s1 = Ret b s'.
Proof. unfold bind. destruct (m s) as [a s1|e s1]; [eauto | done]. Qed.

Lemma ret_inv {A} (a b : A) (s s' : State) : ret a s = Ret b s' -> a = b /\ s = s'.
Proof. unfold ret. by intros [= -> ->]. Qed.

Lemma getitem_inv (d : dict) (k : string) (v : value) (s s' : State) :
  getitem d k s = Ret v s' -> dict_get d k = Some v /\ s' = s.
Proof. unfold getitem. destruct (dict_get d k); [|done]. by intros [= -> ->]. Qed.

Lemma setitem_inv (o : value) (k : string) (v : value) (d : dict) (s s' : State) :
  setitem o k v s = Ret d s' -> exists d0, o = VDict d0 /\ d = dict_set d0 k v /\ s' = s.
Proof. destruct o; try done. intros [= <- <-]. eauto. Qed.

Lemma str_method_inv (v : value) (a : string) (s s' : State) :
  str_method v s = Ret a s' -> v = VStr a /\ s' = s.
Proof. destruct v; try done. by intros [= -> ->]. Qed.

Lemma attribute_inv {A} (o : option A) (a : A) (s s' : State) :
  attribute o s = Ret a s' -> o = Some a /\ s' = s.
Proof. destruct o; [|done]. by intros [= -> ->]. Qed.

Lemma write_file_inv (p data : string) (s s' : State) :
  write_file p data s = Ret tt s' -> s' = with_fs (insert p (File data)) s.
Proof. unfold write_file. destruct (fs s !! p) as [[|?]|]; try done; by intros [= <-]. Qed.

(** Decompose a hypothesis that says a sequence of calls returned. *)
Ltac invert_run H :=
  repeat match type of H with
         | bind _ _ _ = Ret _ _ =>
             let a := fresh "a" in
             let s1 := fresh "s" in
             let H1 := fresh "Hrun" in
             apply bind_inv in H as (a & s1 & H1 & H)
         end.

(** ** Projections of updated states *)

Lemma fs_with_fs (f : gmap string node -> gmap string node) (s : State) :
  fs (with_fs f s) = f (fs s).
Proof. reflexivity. Qed.

Lemma fs_with_self (f : Common -> Common) (s : State) : fs (with_self f s) = fs s.
Proof. reflexivity. Qed.

Lemma self_with_fs (f : gmap string node -> gmap string node) (s : State) :
  self (with_fs f s) = self s.
Proof. reflexivity. Qed.

Lemma self_with_self (f : Common -> Common) (s : State) :
  self (with_self f s) = f (self s).
Proof. reflexivity. Qed.

Lemma paths_set_settings (v : value) (c : Common) : paths (set_settings v c) = paths c.
Proof. reflexivity. Qed.

Lemma tbl_version_set_settings (v : value) (c : Common) :
  tbl_version (set_settings v c) = tbl_version c.
Proof. reflexivity. Qed.

Lemma settings_set_settings (v : value) (c : Common) :
  settings (set_settings v c) = Some v.
Proof. reflexivity. Qed.

Create Rewrite HintDb state.
#[global] Hint Rewrite fs_with_fs fs_with_self self_with_fs self_with_self
  paths_set_settings tbl_version_set_settings settings_set_settings : state.

(** ** The settings store *)

Section SettingsTheorems.
Context `{Host}.

Lemma save_settings_ok (s : State) (current : value) :
  settings (self s) = Some current ->
  fs s !! settings_file (paths (self s)) <> Some Dir ->
  save_settings s
  = Ret true (with_fs (insert (settings_file (paths (self s)))
                         (File (json_dumps current))) s).
Proof.
  intros Hcur Hnodir. unfold save_settings. step.
  step_with ltac:(by apply write_file_ok).
  step_with ltac:(cbn [with_fs self]; rewrite Hcur; reflexivity).
  step_with ltac:(apply write_file_ok; cbn [with_fs fs];
                  by rewrite lookup_insert_eq).
  unfold ret, with_fs. cbn [self fs keyring stdout]. by rewrite insert_insert_eq.
Qed.

Lemma save_settings_inv (s s' : State) (b : bool) :
  save_settings s = Ret b s' ->
  exists current,
    settings (self s) = Some current /\
    s' = with_fs (insert (settings_file (paths (self s)))
                    (File (json_dumps current))) s.
Proof.
  unfold save_settings. intros Hrun. invert_run Hrun.
  apply ret_inv in Hrun as [_ <-].
  injection Hrun0 as <- <-.
  destruct a0. apply write_file_inv in Hrun1 as ->.
  apply attribute_inv in Hrun2 as [Hcur ->].
  destruct a2. apply write_file_inv in Hrun3 as ->.
  exists a1. split; [done|].
  unfold with_fs. cbn [self fs keyring stdout]. by rewrite insert_insert_eq.
Qed.

Lemma backfill_spec (defaults : dict) (missing : list string) (d : dict) (s : State) :
  (forall k, k ∈ missing -> is_Some (dict_get defaults k)) ->
  exists d',
    backfill defaults missing d s = Ret d' s /\
    forall k, dict_get d' k
              = if decide (k ∈ missing) then dict_get defaults k else dict_get d k.
Proof.
  revert d. induction missing as [|k0 missing IH]; intros d Hdef.
  - exists d. split; [done|]. intros k. case_decide as Hk; [|done].
    by apply elem_of_nil in Hk.
  - destruct (Hdef k0) as [v Hv]; [by left|].
    destruct (IH (dict_set d k0 v)) as (d' & Hrun & Hget).
    { intros k Hk. apply Hdef. by right. }
    exists d'. split.
    + cbn [backfill]. unfold getitem. rewrite Hv. by step.
    + intros k. rewrite Hget, dict_get_set.
      destruct (decide (k ∈ missing)) as [Hk|Hk],
               (decide (k0 = k)) as [->|Hk0],
               (decide (_ ∈ _ :: _)) as [Hin|Hin];
        rewrite ?elem_of_cons in Hin; try done; try tauto.
      by destruct Hin as [->|?].
Qed.

Lemma missing_settings_elem_of (defaults d : dict) (k : string) :
  k ∈ missing_settings defaults d <->
  k ∈ keys defaults /\ dict_get d k = None.
Proof.
  unfold missing_settings. rewrite (set_iter_perm _), list_elem_of_filter.
  unfold has_key. destruct (dict_get d k); cbn [negb];
    intuition (try done; try congruence).
Qed.

Lemma normalise_settings_inv (loaded : value) (s s' : State) :
  normalise_settings loaded s = Ret tt s' ->
  exists (d0 d : dict) (a : string),
    loaded = VDict d0 /\
    match dict_get d0 "tor_socks_address" with
    | Some v => v
    | None => VStr "127.0.0.1:9050"
    end = VStr a /\
    self s' = set_settings (VDict d) (self s) /\
    keyring s' = keyring s /\
    stdout s' = stdout s /\
    (fs s' = fs s \/
     fs s' = <[settings_file (paths (self s)) := File (json_dumps (VDict d))]> (fs s)) /\
    (startswith a "tcp:" = true ->
     fs s' = <[settings_file (paths (self s)) := File (json_dumps (VDict d))]> (fs s)) /\
    forall k,
      dict_get d k =
      if decide (k = "tbl_version") then Some (VStr (tbl_version (self s)))
      else if decide (k = "tor_socks_address") then
        Some (VStr (if startswith a "tcp:" then str_drop 4 a else a))
      else if decide (k = "installed") then
        Some (VBool (file_exists (fs s) (tbb_start (paths (self s)))))
      else match dict_get d0 k with
           | Some v => Some v
           | None => dict_get (default_settings (self s)) k
           end.
Proof.
  unfold normalise_settings. intros Hrun.
  apply bind_inv in Hrun as (c & s1 & [= <- <-] & Hrun).
  apply bind_inv in Hrun as (installed & s1 & [= <- <-] & Hrun).
  apply bind_inv in Hrun as (d1 & s1 & (d0 & -> & -> & ->)%setitem_inv & Hrun).
  set (c := self s) in *. set (d1 := dict_set d0 "installed" _) in *.
  destruct (backfill_spec (default_settings c)
              (missing_settings (default_settings c) d1) d1 s) as (d2 & Hfill & Hd2).
  { intros k [Hk _]%missing_settings_elem_of. by apply dict_get_keys. }
  apply bind_inv in Hrun as (d2' & s1 & Hfill' & Hrun).
  rewrite Hfill in Hfill'. injection Hfill' as <- <-.
  apply bind_inv in Hrun as (addr & s1 & [Haddr ->]%getitem_inv & Hrun).
  apply bind_inv in Hrun as (a & s1 & [-> ->]%str_method_inv & Hrun).
  set (d3 := if startswith a "tcp:" then _ else d2) in *.
  apply bind_inv in Hrun as (version & s1 & [Hversion ->]%getitem_inv & Hrun).
  set (d4 := if differs_from version (tbl_version c) then _ else d3) in *.
  apply bind_inv in Hrun as ([] & s1 & [= <-] & Hrun).
  assert (Hfilled : forall k, dict_get d2 k
            = if decide (k = "installed") then
                Some (VBool (file_exists (fs s) (tbb_start (paths c))))
              else match dict_get d0 k with
                   | Some v => Some v
                   | None => dict_get (default_settings c) k
                   end).
  { intros k. rewrite Hd2. subst d1.
    destruct (decide (k ∈ _)) as [[Hk Hnone]%missing_settings_elem_of|Hk].
    - rewrite dict_get_set in Hnone. destruct (decide ("installed" = k)); [done|].
      rewrite decide_False by done. by rewrite Hnone.
    - rewrite dict_get_set. destruct (decide ("installed" = k)) as [<-|Hne].
      + by rewrite decide_True.
      + rewrite decide_False by done. destruct (dict_get d0 k) eqn:Hk0; [done|].
        destruct (dict_get (default_settings c) k) eqn:Hkd; [|done].
        exfalso. apply Hk, missing_settings_elem_of. split.
        * apply dict_get_keys. eauto.
        * by rewrite dict_get_set_ne. }
  assert (Hd3 : forall k, dict_get d3 k
            = if decide (k = "tor_socks_address") then
                Some (VStr (if startswith a "tcp:" then str_drop 4 a else a))
              else dict_get d2 k).
  { intros k. subst d3. destruct (startswith a "tcp:").
    - rewrite dict_get_set. destruct (decide ("tor_socks_address" = k)) as [<-|?].
      + by rewrite decide_True.
      + by rewrite decide_False.
    - destruct (decide (k = "tor_socks_address")) as [->|?]; done. }
  assert (Hd4 : forall k, dict_get d4 k
            = if decide (k = "tbl_version") then Some (VStr (tbl_version c))
              else dict_get d3 k).
  { intros k. subst d4. destruct (differs_from version (tbl_version c)) eqn:Hdiff.
    - rewrite dict_get_set. destruct (decide ("tbl_version" = k)) as [<-|?].
      + by rewrite decide_True.
      + by rewrite decide_False.
    - destruct (decide (k = "tbl_version")) as [->|?]; [|done].
      rewrite Hversion. destruct version; try done. cbn [differs_from] in Hdiff.
      apply negb_false_iff, String.eqb_eq in Hdiff. by subst. }
  exists d0, d4, a. split_and!.
  - done.
  - rewrite Hfilled in Haddr. rewrite decide_False in Haddr by done.
    destruct (dict_get d0 "tor_socks_address"); by simplify_eq/=.
  - destruct (_ || _) in Hrun.
    + apply bind_inv in Hrun as (b & s1 & (cur & _ & ->)%save_settings_inv & [= <-]).
      done.
    + by injection Hrun as <-.
  - destruct (_ || _) in Hrun.
    + apply bind_inv in Hrun as (b & s1 & (cur & _ & ->)%save_settings_inv & [= <-]).
      done.
    + by injection Hrun as <-.
  - destruct (_ || _) in Hrun.
    + apply bind_inv in Hrun as (b & s1 & (cur & _ & ->)%save_settings_inv & [= <-]).
      done.
    + by injection Hrun as <-.
  - destruct (_ || _) in Hrun.
    + apply bind_inv in Hrun as (b & s1 & (cur & Hcur & ->)%save_settings_inv & [= <-]).
      right. cbn in Hcur. by simplify_eq.
    + left. by injection Hrun as <-.
  - intros Htcp. rewrite Htcp in Hrun. 
    rewrite orb_true_l, orb_true_r in Hrun.
    apply bind_inv in Hrun as (b & s1 & (cur & Hcur & ->)%save_settings_inv & [= <-]).
    cbn in Hcur. by simplify_eq.
  - intros k. rewrite Hd4, Hd3, Hfilled. done.
Qed.

Lemma read_json_settings_eq (s : State) :
  read_json_settings s
  = match fs s !! settings_file (paths (self s)) with
    | None => Raise FileNotFoundError s
    | Some Dir => Raise IsADirectoryError s
    | Some (File text) =>
        match json_loads text with
        | Some loaded => Ret loaded s
        | None => Raise JSONDecodeError s
        end
    end.
Proof.
  unfold read_json_settings, bind, get_self, read_file.
  destruct (fs s !! _) as [[|text]|]; [done | | done].
  by destruct (json_loads text).
Qed.

Lemma read_pickle_settings_eq (s : State) :
  read_pickle_settings s
  = match fs s !! settings_file_pickle (paths (self s)) with
    | None => Raise FileNotFoundError s
    | Some Dir => Raise IsADirectoryError s
    | Some (File data) =>
        match pickle_loads data with
        | Some v => Ret tt (with_self (set_settings v) s)
        | None => Raise UnpicklingError s
        end
    end.
Proof.
  unfold read_pickle_settings, bind, get_self, read_file.
  destruct (fs s !! _) as [[|data]|]; [done | | done].
  by destruct (pickle_loads data).
Qed.

Lemma install_defaults_ok (s : State) :
  fs s !! settings_file (paths (self s)) <> Some Dir ->
  install_defaults s
  = Ret tt (with_fs (insert (settings_file (paths (self s)))
                       (File (json_dumps (VDict (default_settings (self s))))))
              (with_self (set_settings (VDict (default_settings (self s)))) s)).
Proof.
  intros Hnodir. unfold install_defaults. step. step.
  by step_with ltac:(by apply save_settings_ok).
Qed.

(** With no file of either format, [load_settings] installs the defaults
    and writes them. *)
Lemma load_settings_no_files (fuel : nat) (s : State) :
  fs s !! settings_file (paths (self s)) = None ->
  fs s !! settings_file_pickle (paths (self s)) = None \/
  fs s !! settings_file_pickle (paths (self s)) = Some Dir ->
  load_settings (S fuel) s
  = Some (Ret tt
            (with_fs (insert (settings_file (paths (self s)))
                        (File (json_dumps (VDict (default_settings (self s))))))
               (with_self (set_settings (VDict (default_settings (self s)))) s))).
Proof.
  intros Hjson Hpickle. cbn [load_settings].
  rewrite read_json_settings_eq, Hjson. cbn [is_missing].
  rewrite read_pickle_settings_eq.
  destruct Hpickle as [-> | ->]; cbn [is_missing];
    rewrite install_defaults_ok; by rewrite ?Hjson.
Qed.

(** The converted legacy file: what [load_settings] does before it calls
    itself. *)
Lemma load_settings_legacy_step (fuel : nat) (s : State) (data : string) (legacy : value) :
  settings_file (paths (self s)) <> settings_file_pickle (paths (self s)) ->
  fs s !! settings_file (paths (self s)) = None ->
  fs s !! settings_file_pickle (paths (self s)) = Some (File data) ->
  pickle_loads data = Some legacy ->
  load_settings (S fuel) s
  = load_settings fuel
      (with_fs (delete (settings_file_pickle (paths (self s))))
         (with_fs (insert (settings_file (paths (self s))) (File (json_dumps legacy)))
            (with_self (set_settings legacy) s))).
Proof.
  intros Hne Hjson Hpickle Hloads. cbn [load_settings].
  rewrite read_json_settings_eq, Hjson. cbn [is_missing].
  rewrite read_pickle_settings_eq, Hpickle, Hloads.
  erewrite bind_Ret.
  2: { apply save_settings_ok; [reflexivity|].
       cbn [with_self fs self set_settings paths]. by rewrite Hjson. }
  erewrite bind_Ret by reflexivity.
  unfold unlink. cbn [with_fs with_self fs self set_settings paths].
  by rewrite lookup_insert_ne, Hpickle.
Qed.

(** Two levels of [load_settings] are enough: the self-call happens only
    after the JSON file has been written, and a state in which that file
    exists does not lead to another self-call. *)
Lemma load_settings_json_present (fuel : nat) (s : State) (text : string) :
  fs s !! settings_file (paths (self s)) = Some (File text) ->
  exists o, load_settings (S fuel) s = Some o.
Proof.
  intros Hjson. cbn [load_settings]. rewrite read_json_settings_eq, Hjson.
  destruct (json_loads text); eauto.
Qed.

Lemma load_settings_terminates (fuel : nat) (s : State) :
  exists o, load_settings (S (S fuel)) s = Some o.
Proof.
  change (load_settings (S (S fuel)) s) with
    (match read_json_settings s with
     | Ret loaded s1 => Some (normalise_settings loaded s1)
     | Raise e s1 =>
         if is_missing e then
           match read_pickle_settings s1 with
           | Ret _ s2 =>
               match (save_settings >>
                      let* c := get_self in
                      unlink (settings_file_pickle (paths c))) s2 with
               | Ret _ s3 => load_settings (S fuel) s3
               | Raise e3 s3 => Some (Raise e3 s3)
               end
           | Raise e2 s2 =>
               if is_missing e2 then Some (install_defaults s2)
               else Some (Raise e2 s2)
           end
         else Some (Raise e s1)
     end).
  rewrite read_json_settings_eq.
  destruct (fs s !! settings_file _) as [[|text]|] eqn:Hjson;
    [ | destruct (json_loads text); eauto | ]; cbn [is_missing].
  all: rewrite read_pickle_settings_eq.
  all: destruct (fs s !! settings_file_pickle _) as [[|data]|] eqn:Hpickle;
    [eauto | | eauto].
  all: destruct (pickle_loads data) as [legacy|]; [|eauto].
  all: destruct (bind save_settings _ _) as [[] s3|e3 s3] eqn:Hsave; [|eauto].
  all: apply bind_inv in Hsave as (b & s2 & (cur & _ & ->)%save_settings_inv & Hunlink).
  all: apply bind_inv in Hunlink as (c & s2 & [= <- <-] & Hunlink).
  all: unfold unlink in Hunlink; autorewrite with state in Hunlink.
  all: assert (Hne : settings_file (paths (self s))
                     <> settings_file_pickle (paths (self s))) by congruence.
  all: rewrite lookup_insert_ne, Hpickle in Hunlink by done.
  all: injection Hunlink as <-.
  all: eapply load_settings_json_present.
  all: cbn [with_fs with_self fs self set_settings paths].
  all: rewrite lookup_delete_ne by done; apply lookup_insert_eq.
Qed.

Lemma unlink_inv (p : string) (s s' : State) :
  unlink p s = Ret tt s' -> s' = with_fs (delete p) s.
Proof. unfold unlink. destruct (fs s !! p) as [[|?]|]; try done; by intros [= <-]. Qed.

Lemma load_settings_json_missing (fuel : nat) (s : State) :
  fs s !! settings_file (paths (self s)) = None \/
  fs s !! settings_file (paths (self s)) = Some Dir ->
  load_settings (S fuel) s
  = match fs s !! settings_file_pickle (paths (self s)) with
    | Some (File data) =>
        match pickle_loads data with
        | Some legacy =>
            match (save_settings >>
                   let* c := get_self in
                   unlink (settings_file_pickle (paths c)))
                    (with_self (set_settings legacy) s) with
            | Ret _ s3 => load_settings fuel s3
            | Raise e3 s3 => Some (Raise e3 s3)
            end
        | None => Some (Raise UnpicklingError s)
        end
    | _ => Some (install_defaults s)
    end.
Proof.
  intros Hjson. cbn [load_settings]. rewrite read_json_settings_eq.
  destruct Hjson as [-> | ->]; cbn [is_missing];
    rewrite read_pickle_settings_eq;
    destruct (fs s !! settings_file_pickle _) as [[|data]|]; try done;
    by destruct (pickle_loads data).
Qed.

Lemma install_defaults_inv (s s' : State) :
  install_defaults s = Ret tt s' ->
  self s' = set_settings (VDict (default_settings (self s))) (self s).
Proof.
  unfold install_defaults. intros Hrun.
  apply bind_inv in Hrun as (c & s1 & [= <- <-] & Hrun).
  apply bind_inv in Hrun as ([] & s1 & [= <-] & Hrun).
  apply bind_inv in Hrun as (b & s1 & (cur & _ & ->)%save_settings_inv & [= <-]).
  reflexivity.
Qed.

Lemma convert_legacy_inv (legacy : value) (s s3 : State) (u : unit) :
  (save_settings >>
   let* c := get_self in
   unlink (settings_file_pickle (paths c))) (with_self (set_settings legacy) s)
  = Ret u s3 ->
  s3 = with_fs (delete (settings_file_pickle (paths (self s))))
         (with_fs (insert (settings_file (paths (self s))) (File (json_dumps legacy)))
            (with_self (set_settings legacy) s)).
Proof.
  intros Hrun.
  apply bind_inv in Hrun as (b & s1 & (cur & Hcur & ->)%save_settings_inv & Hrun).
  apply bind_inv in Hrun as (c & s1 & [= <- <-] & Hrun).
  destruct u. apply unlink_inv in Hrun as ->.
  autorewrite with state in Hcur. by simplify_eq.
Qed.

Lemma load_settings_json_present_fuel (fuel : nat) (s : State) (text : string) :
  fs s !! settings_file (paths (self s)) = Some (File text) ->
  load_settings (S fuel) s = load_settings 1 s.
Proof.
  intros Hjson. cbn [load_settings]. rewrite read_json_settings_eq, Hjson.
  by destruct (json_loads text).
Qed.

(** More than two levels change nothing. *)
Lemma load_settings_fuel (fuel : nat) (s : State) :
  load_settings (S (S fuel)) s = load_settings 2 s.
Proof.
  destruct (fs s !! settings_file (paths (self s))) as [[|text]|] eqn:Hjson.
  2: { by rewrite (load_settings_json_present_fuel (S fuel) s text),
            (load_settings_json_present_fuel 1 s text). }
  all: rewrite (load_settings_json_missing (S fuel) s),
         (load_settings_json_missing 1 s) by eauto.
  all: destruct (fs s !! settings_file_pickle _) as [[|data]|] eqn:Hpickle; try done.
  all: destruct (pickle_loads data) as [legacy|]; [|done].
  all: destruct (bind save_settings _ _) as [u s3|e3 s3] eqn:Hconv; [|done].
  all: apply convert_legacy_inv in Hconv as ->.
  all: assert (Hne : settings_file (paths (self s))
                     <> settings_file_pickle (paths (self s))) by congruence.
  all: apply load_settings_json_present_fuel with (text := json_dumps legacy).
  all: autorewrite with state.
  all: rewrite lookup_delete_ne by done; apply lookup_insert_eq.
Qed.

(** C7 (as amended): whenever [load_settings] returns, [self.settings] is
    a dict in which every key of the defaults is bound and [tbl_version] is
    the running version. When the settings file held a JSON object,
    [installed] says whether the start file exists, whatever the file said
    and also when the file had no such key, and every other key of the
    defaults that the file lacked carries its default value. *)
Theorem load_settings_complete (fuel : nat) (s s' : State) :
  load_settings fuel s = Some (Ret tt s') ->
  exists d : dict,
    settings (self s') = Some (VDict d) /\
    Forall (fun k => is_Some (dict_get d k)) (keys (default_settings (self s))) /\
    dict_get d "tbl_version" = Some (VStr (tbl_version (self s))) /\
    (forall text loaded,
       fs s !! settings_file (paths (self s)) = Some (File text) ->
       json_loads text = Some (VDict loaded) ->
       dict_get d "installed"
       = Some (VBool (file_exists (fs s) (tbb_start (paths (self s))))) /\
       forall k v,
         k <> "installed" ->
         dict_get loaded k = None ->
         dict_get (default_settings (self s)) k = Some v ->
         dict_get d k = Some v).
Proof.
  revert s. induction fuel as [|fuel IH]; intros s Hload; [done|].
  destruct (fs s !! settings_file (paths (self s))) as [[|text]|] eqn:Hjson.
  2: { cbn [load_settings] in Hload. rewrite read_json_settings_eq, Hjson in Hload.
       destruct (json_loads text) as [loaded|] eqn:Hloads; [|done].
       injection Hload as Hnorm.
       apply normalise_settings_inv in Hnorm
         as (d0 & d & a & -> & Ha & Hself & _ & _ & _ & _ & Hget).
       exists d. split_and!.
       - by rewrite Hself.
       - apply Forall_forall. intros k [v Hv]%dict_get_keys. rewrite Hget.
         repeat (destruct (decide _) as [?|?]; [by eauto|]).
         destruct (dict_get d0 k); [by eauto|]. by rewrite Hv.
       - by rewrite Hget, decide_True.
       - intros text' loaded' [= <-] Hloaded.
         rewrite Hloads in Hloaded. injection Hloaded as <-. split.
         + rewrite Hget. by repeat (destruct (decide _) as [?|?]; try done).
         + intros k v Hk Hnone Hdef. rewrite Hget.
           destruct (decide (k = "tbl_version")) as [->|?].
           { by injection Hdef as <-. }
           destruct (decide (k = "tor_socks_address")) as [->|?].
           { rewrite Hnone in Ha. injection Ha as <-. by injection Hdef as <-. }
           rewrite decide_False by done. by rewrite Hnone. }
  all: rewrite load_settings_json_missing in Hload by eauto.
  all: destruct (fs s !! settings_file_pickle _) as [[|data]|] eqn:Hpickle.
  all: try (injection Hload as ->%install_defaults_inv;
            exists (default_settings (self s)); split_and!;
            [ done
            | apply Forall_forall; intros k Hk; by apply dict_get_keys
            | done
            | by intros text loaded [=] ]).
  all: destruct (pickle_loads data) as [legacy|]; [|done].
  all: destruct (bind save_settings _ _) as [u s3|e3 s3] eqn:Hconv; [|done].
  all: apply convert_legacy_inv in Hconv as ->.
  all: apply IH in Hload as (d & Hd & Hall & Hversion & _).
  all: exists d; split_and!; [done | done | done | by intros text loaded [=] ].
Qed.

End SettingsTheorems.

Section SettingsScenarios.
Context `{Host}.

(** C4 (as amended): a missing settings file is passed over. When the
    legacy file is missing too, or is a directory, [load_settings] installs
    the complete defaults, writes them and returns. A settings file whose
    content [json.load] rejects is not passed over: the decoder's exception
    leaves [load_settings], and neither the object nor the files have
    changed, so no settings record, partial or whole, has been installed. *)
Theorem load_settings_absent_or_malformed (fuel : nat) (s : State) :
  (fs s !! settings_file (paths (self s)) = None ->
   fs s !! settings_file_pickle (paths (self s)) = None \/
   fs s !! settings_file_pickle (paths (self s)) = Some Dir ->
   load_settings (S fuel) s
   = Some (Ret tt
             (with_fs (insert (settings_file (paths (self s)))
                         (File (json_dumps (VDict (default_settings (self s))))))
                (with_self (set_settings (VDict (default_settings (self s)))) s)))) /\
  (forall text,
     fs s !! settings_file (paths (self s)) = Some (File text) ->
     json_loads text = None ->
     load_settings (S fuel) s = Some (Raise JSONDecodeError s)).
Proof.
  split.
  - apply load_settings_no_files.
  - intros text Hjson Hloads. cbn [load_settings].
    by rewrite read_json_settings_eq, Hjson, Hloads.
Qed.

(** C9: with neither settings file present and version 1.2.3,
    [load_settings] leaves exactly the default record in [self.settings]
    and writes the settings file with the serialisation of exactly that
    record. *)
Theorem load_settings_fresh_install (fuel : nat) (s : State) :
  tbl_version (self s) = "1.2.3" ->
  default_mirror (self s) = "https://dist.torproject.org/" ->
  fs s !! settings_file (paths (self s)) = None ->
  fs s !! settings_file_pickle (paths (self s)) = None ->
  let record :=
    VDict [("tbl_version", VStr "1.2.3");
           ("installed", VBool false);
           ("download_over_tor", VBool false);
           ("tor_socks_address", VStr "127.0.0.1:9050");
           ("mirror", VStr "https://dist.torproject.org/")] in
  exists s',
    load_settings (S fuel) s = Some (Ret tt s') /\
    settings (self s') = Some record /\
    fs s' = <[settings_file (paths (self s)) := File (json_dumps record)]> (fs s) /\
    keyring s' = keyring s /\ stdout s' = stdout s.
Proof.
  intros Hversion Hmirror Hjson Hpickle record. eexists. split.
  - apply load_settings_no_files; eauto.
  - subst record. unfold default_settings. rewrite Hversion, Hmirror.
    by split_and!.
Qed.

(** No key of the defaults is missing: the set difference is empty, and so
    is its iteration. *)
Lemma missing_settings_nil (defaults d : dict) :
  Forall (fun k => is_Some (dict_get d k)) (keys defaults) ->
  missing_settings defaults d = [].
Proof.
  unfold missing_settings. generalize (keys defaults) as l. intros l Hall.
  assert (filter (fun k => negb (has_key d k)) l = []) as ->.
  { induction Hall as [|k l [v Hv] _ IH]; [done|].
    rewrite filter_cons_False; [done|]. unfold has_key. rewrite Hv. by intros []. }
  apply Permutation_nil. by rewrite (set_iter_perm _).
Qed.

Lemma normalise_legacy_settings (s : State) :
  fs s !! settings_file (paths (self s)) <> Some Dir ->
  let d := Demo.migrated (tbl_version (self s))
             (file_exists (fs s) (tbb_start (paths (self s)))) in
  normalise_settings Demo.legacy_settings s
  = Ret tt (with_fs (insert (settings_file (paths (self s)))
                       (File (json_dumps (VDict d))))
              (with_self (set_settings (VDict d)) s)).
Proof.
  intros Hnodir d. unfold normalise_settings, Demo.legacy_settings.
  step. step. step. cbn [dict_set String.eqb Ascii.eqb Bool.eqb].
  rewrite missing_settings_nil.
  2: { repeat constructor; cbn; eauto. }
  cbn [backfill]. step. step. step.
  change (startswith "tcp:10.0.0.1:9050" "tcp:") with true. cbv iota.
  cbn [dict_set String.eqb Ascii.eqb Bool.eqb str_drop orb].
  step. cbn [differs_from].
  rewrite orb_true_r.
  replace (if negb (String.eqb "1.0.0" (tbl_version (self s))) then _ else _) with d.
  2: { subst d. unfold Demo.migrated.
       destruct (String.eqb_spec "1.0.0" (tbl_version (self s))) as [Heq|Hne];
         cbn [negb]; [by rewrite <- Heq | done]. }
  step. by step_with ltac:(by apply save_settings_ok).
Qed.

(** C6: with a legacy file and no JSON file, [load_settings] deserialises
    the legacy record, writes it as JSON, deletes the legacy file and calls
    itself on the resulting state, and the whole call ends: two levels are
    enough. For the legacy record of the scenario, read back from the JSON
    file as it was written, the call returns, the JSON file then holds the
    record with [tor_socks_address] 10.0.0.1:9050 and [tbl_version] the
    running version, and the legacy file is gone. *)
Theorem load_settings_migrates_legacy
    (fuel : nat) (s : State) (data : string) (legacy : value) :
  settings_file (paths (self s)) <> settings_file_pickle (paths (self s)) ->
  fs s !! settings_file (paths (self s)) = None ->
  fs s !! settings_file_pickle (paths (self s)) = Some (File data) ->
  pickle_loads data = Some legacy ->
  let converted :=
    with_fs (delete (settings_file_pickle (paths (self s))))
      (with_fs (insert (settings_file (paths (self s))) (File (json_dumps legacy)))
         (with_self (set_settings legacy) s)) in
  load_settings (S (S fuel)) s = load_settings (S fuel) converted /\
  fs converted !! settings_file (paths (self s)) = Some (File (json_dumps legacy)) /\
  fs converted !! settings_file_pickle (paths (self s)) = None /\
  (exists o, load_settings (S (S fuel)) s = Some o) /\
  (legacy = Demo.legacy_settings ->
   json_loads (json_dumps legacy) = Some legacy ->
   exists (installed : bool) (s' : State),
     let final := Demo.migrated (tbl_version (self s)) installed in
     load_settings (S (S fuel)) s = Some (Ret tt s') /\
     settings (self s') = Some (VDict final) /\
     fs s' !! settings_file (paths (self s)) = Some (File (json_dumps (VDict final))) /\
     fs s' !! settings_file_pickle (paths (self s)) = None /\
     dict_get final "tor_socks_address" = Some (VStr "10.0.0.1:9050") /\
     dict_get final "tbl_version" = Some (VStr (tbl_version (self s)))).
Proof.
  intros Hne Hjson Hpickle Hloads converted.
  assert (Hstep : load_settings (S (S fuel)) s = load_settings (S fuel) converted)
    by by eapply load_settings_legacy_step.
  assert (Hsf : fs converted !! settings_file (paths (self s))
                = Some (File (json_dumps legacy))).
  { subst converted. autorewrite with state.
    rewrite lookup_delete_ne by done. apply lookup_insert_eq. }
  assert (Hpf : fs converted !! settings_file_pickle (paths (self s)) = None).
  { subst converted. autorewrite with state. apply lookup_delete_eq. }
  split_and!; [done | done | done | apply load_settings_terminates |].
  intros -> Hround.
  eexists _, _. split_and!.
  - rewrite Hstep. cbn [load_settings].
    rewrite read_json_settings_eq.
    replace (self converted) with (set_settings Demo.legacy_settings (self s)) by done.
    autorewrite with state. rewrite Hsf, Hround.
    rewrite normalise_legacy_settings; [reflexivity|].
    replace (self converted) with (set_settings Demo.legacy_settings (self s)) by done.
    autorewrite with state. by rewrite Hsf.
  - reflexivity.
  - autorewrite with state. apply lookup_insert_eq.
  - autorewrite with state. by rewrite lookup_insert_ne.
  - reflexivity.
  - reflexivity.
Qed.

End SettingsScenarios.

Section PrefixTheorems.
Context `{Host}.

(** The part of C8 that holds for every settings file: an address that
    starts with [tcp:] is replaced by what follows those four characters,
    and the record is written back with the replacement in it. *)
Lemma load_settings_strips_tcp_once
    (fuel : nat) (s s' : State) (text a : string) (loaded : dict) :
  fs s !! settings_file (paths (self s)) = Some (File text) ->
  json_loads text = Some (VDict loaded) ->
  dict_get loaded "tor_socks_address" = Some (VStr a) ->
  startswith a "tcp:" = true ->
  load_settings (S fuel) s = Some (Ret tt s') ->
  exists (d : dict) (rest : string),
    a = "tcp:" +:+ rest /\
    settings (self s') = Some (VDict d) /\
    dict_get d "tor_socks_address" = Some (VStr rest) /\
    fs s' !! settings_file (paths (self s)) = Some (File (json_dumps (VDict d))).
Proof.
  intros Hjson Hloads Haddr Htcp Hload. cbn [load_settings] in Hload.
  rewrite read_json_settings_eq, Hjson, Hloads in Hload. injection Hload as Hnorm.
  apply normalise_settings_inv in Hnorm
    as (d0 & d & a' & [= <-] & Ha & Hself & _ & _ & _ & Hsaved & Hget).
  rewrite Haddr in Ha. injection Ha as <-.
  pose proof Htcp as [rest ->]%prefix_spec.
  exists d, rest. split_and!.
  - done.
  - by rewrite Hself.
  - rewrite Hget, Htcp. by repeat (destruct (decide _) as [?|?]; try done).
  - rewrite (Hsaved Htcp). apply lookup_insert_eq.
Qed.

End PrefixTheorems.

(** ** The settings scenarios, run on the concrete host *)

(** C4, witness: an empty configuration directory, and a settings file
    that holds a lone opening brace. *)
Lemma load_settings_absent_or_malformed_witness :
  let empty := Demo.state [] in
  let broken := Demo.state [(Demo.settings_json, File "{")] in
  load_settings 1 empty
  = Some (Ret tt
            (with_fs (insert Demo.settings_json
                        (File (json_dumps (VDict (default_settings Demo.common)))))
               (with_self (set_settings (VDict (default_settings Demo.common))) empty))) /\
  load_settings 1 broken = Some (Raise JSONDecodeError broken).
Proof.
  intros empty broken. split.
  - apply (proj1 (load_settings_absent_or_malformed 0 empty)).
    + reflexivity.
    + left. reflexivity.
  - apply (proj2 (load_settings_absent_or_malformed 0 broken) "{").
    + reflexivity.
    + reflexivity.
Defined.

(** C4, counterexample: the settings file holds a lone opening brace, which
    is not well-formed JSON, and there is no legacy file. [load_settings]
    does not construct the defaults: it raises, and [self.settings] is
    still unassigned. *)
Lemma load_settings_malformed_counterexample :
  let s := Demo.state [(Demo.settings_json, File "{")] in
  json_loads "{" = None /\
  load_settings 2 s = Some (Raise JSONDecodeError s) /\
  settings (self s) = None.
Proof. split_and!; reflexivity. Qed.

(** C9, witness: a fresh object of version 1.2.3 over an empty
    configuration directory. *)
Lemma load_settings_fresh_install_witness :
  let s := Demo.state [] in
  let record :=
    VDict [("tbl_version", VStr "1.2.3");
           ("installed", VBool false);
           ("download_over_tor", VBool false);
           ("tor_socks_address", VStr "127.0.0.1:9050");
           ("mirror", VStr "https://dist.torproject.org/")] in
  exists s',
    load_settings 1 s = Some (Ret tt s') /\
    settings (self s') = Some record /\
    fs s' = <[settings_file (paths (self s)) := File (json_dumps record)]> (fs s) /\
    keyring s' = keyring s /\ stdout s' = stdout s.
Proof.
  intros s. apply (load_settings_fresh_install 0 s); reflexivity.
Defined.

(** The text that the fresh install writes. *)
Example fresh_install_text :
  json_dumps (VDict (default_settings Demo.common))
  = "{" +:+ Demo.quoted "tbl_version" +:+ ": " +:+ Demo.quoted "1.2.3" +:+ ", " +:+
    Demo.quoted "installed" +:+ ": false, " +:+
    Demo.quoted "download_over_tor" +:+ ": false, " +:+
    Demo.quoted "tor_socks_address" +:+ ": " +:+ Demo.quoted "127.0.0.1:9050" +:+ ", " +:+
    Demo.quoted "mirror" +:+ ": " +:+ Demo.quoted "https://dist.torproject.org/" +:+ "}".
Proof. reflexivity. Qed.

(** C6, witness: the configuration directory holds the legacy file of the
    scenario and nothing else. *)
Lemma load_settings_migrates_legacy_witness :
  let s := Demo.state [(Demo.settings_pickle, File Demo.legacy_pickle)] in
  let converted :=
    with_fs (delete Demo.settings_pickle)
      (with_fs (insert Demo.settings_json (File (json_dumps Demo.legacy_settings)))
         (with_self (set_settings Demo.legacy_settings) s)) in
  load_settings 2 s = load_settings 1 converted /\
  fs converted !! Demo.settings_json = Some (File (json_dumps Demo.legacy_settings)) /\
  fs converted !! Demo.settings_pickle = None /\
  (exists o, load_settings 2 s = Some o) /\
  exists (installed : bool) (s' : State),
    let final := Demo.migrated "1.2.3" installed in
    load_settings 2 s = Some (Ret tt s') /\
    settings (self s') = Some (VDict final) /\
    fs s' !! Demo.settings_json = Some (File (json_dumps (VDict final))) /\
    fs s' !! Demo.settings_pickle = None /\
    dict_get final "tor_socks_address" = Some (VStr "10.0.0.1:9050") /\
    dict_get final "tbl_version" = Some (VStr "1.2.3").
Proof.
  intros s converted.
  assert (Hne : settings_file (paths (self s)) <> settings_file_pickle (paths (self s)))
    by discriminate.
  assert (Hjson : fs s !! settings_file (paths (self s)) = None)
    by reflexivity.
  assert (Hpickle : fs s !! settings_file_pickle (paths (self s))
                    = Some (File Demo.legacy_pickle))
    by reflexivity.
  assert (Hloads : pickle_loads Demo.legacy_pickle = Some Demo.legacy_settings)
    by reflexivity.
  destruct (load_settings_migrates_legacy 0 s Demo.legacy_pickle Demo.legacy_settings
              Hne Hjson Hpickle Hloads) as (H1 & H2 & H3 & H4 & H5).
  split_and!; [exact H1 | exact H2 | exact H3 | exact H4 |].
  apply H5; reflexivity.
Defined.

(** The files after the migration: no legacy file, and the text of the
    settings file. *)
Example migrated_text :
  let s := Demo.state [(Demo.settings_pickle, File Demo.legacy_pickle)] in
  let text :=
    "{" +:+ Demo.quoted "tbl_version" +:+ ": " +:+ Demo.quoted "1.2.3" +:+ ", " +:+
    Demo.quoted "installed" +:+ ": false, " +:+
    Demo.quoted "download_over_tor" +:+ ": true, " +:+
    Demo.quoted "tor_socks_address" +:+ ": " +:+ Demo.quoted "10.0.0.1:9050" +:+ ", " +:+
    Demo.quoted "mirror" +:+ ": " +:+ Demo.quoted "https://example.org/" +:+ "}" in
  load_settings 2 s
  = Some (Ret tt
            (with_fs (insert Demo.settings_json (File text))
               (with_fs (delete Demo.settings_pickle)
                  (with_fs (insert Demo.settings_json (File (json_dumps Demo.legacy_settings)))
                     (with_self (set_settings (VDict (Demo.migrated "1.2.3" false))) s))))).
Proof. reflexivity. Qed.

(** C7, witness: the settings file holds an empty JSON object and the
    start file exists. *)
Lemma load_settings_complete_witness :
  let s := Demo.state [(Demo.settings_json, File "{}");
                       (Demo.start_desktop, File "[Desktop Entry]")] in
  let filled :=
    [("installed", VBool true);
     ("mirror", VStr "https://dist.torproject.org/");
     ("tor_socks_address", VStr "127.0.0.1:9050");
     ("download_over_tor", VBool false);
     ("tbl_version", VStr "1.2.3")] in
  let s' := with_fs (insert Demo.settings_json (File (json_dumps (VDict filled))))
              (with_self (set_settings (VDict filled)) s) in
  exists d : dict,
    settings (self s') = Some (VDict d) /\
    Forall (fun k => is_Some (dict_get d k)) (keys (default_settings (self s))) /\
    dict_get d "tbl_version" = Some (VStr (tbl_version (self s))) /\
    (forall text loaded,
       fs s !! settings_file (paths (self s)) = Some (File text) ->
       json_loads text = Some (VDict loaded) ->
       dict_get d "installed"
       = Some (VBool (file_exists (fs s) (tbb_start (paths (self s))))) /\
       forall k v,
         k <> "installed" ->
         dict_get loaded k = None ->
         dict_get (default_settings (self s)) k = Some v ->
         dict_get d k = Some v).
Proof.
  intros s filled s'. apply (load_settings_complete 1 s s'). reflexivity.
Defined.

(** C7, counterexample: the settings file holds an empty JSON object, so
    [installed] is absent from it, and the start file exists. After
    [load_settings] the record binds [installed] to [True], which is not
    the default of that field. *)
Lemma load_settings_backfill_counterexample :
  let s := Demo.state [(Demo.settings_json, File "{}");
                       (Demo.start_desktop, File "[Desktop Entry]")] in
  let filled :=
    [("installed", VBool true);
     ("mirror", VStr "https://dist.torproject.org/");
     ("tor_socks_address", VStr "127.0.0.1:9050");
     ("download_over_tor", VBool false);
     ("tbl_version", VStr "1.2.3")] in
  json_loads "{}" = Some (VDict []) /\
  dict_get [] "installed" = None /\
  dict_get (default_settings (self s)) "installed" = Some (VBool false) /\
  load_settings 1 s
  = Some (Ret tt (with_fs (insert Demo.settings_json (File (json_dumps (VDict filled))))
                    (with_self (set_settings (VDict filled)) s))) /\
  dict_get filled "installed" = Some (VBool true).
Proof. split_and!; reflexivity. Qed.

(** C8 (the code at the failing input): the settings file gives an address
    that carries the prefix twice. [load_settings] removes it once; the
    address that it leaves in [self.settings] and writes back to the file
    still starts with [tcp:]. *)
Theorem load_settings_double_prefix :
  let text := "{" +:+ Demo.quoted "tor_socks_address" +:+ ": " +:+
              Demo.quoted "tcp:tcp:10.0.0.1:9050" +:+ "}" in
  let s := Demo.state [(Demo.settings_json, File text)] in
  let d := [("tor_socks_address", VStr "tcp:10.0.0.1:9050");
            ("installed", VBool false);
            ("mirror", VStr "https://dist.torproject.org/");
            ("download_over_tor", VBool false);
            ("tbl_version", VStr "1.2.3")] in
  json_loads text = Some (VDict [("tor_socks_address", VStr "tcp:tcp:10.0.0.1:9050")]) /\
  load_settings 1 s
  = Some (Ret tt (with_fs (insert Demo.settings_json (File (json_dumps (VDict d))))
                    (with_self (set_settings (VDict d)) s))) /\
  dict_get d "tor_socks_address" = Some (VStr "tcp:10.0.0.1:9050") /\
  startswith "tcp:10.0.0.1:9050" "tcp:" = true.
Proof. split_and!; reflexivity. Qed.

(** * Further properties of the code *)

(** ** Key import: what it leaves alone and when it says no *)

Section KeyFrame.
Context `{Host}.

(** Whatever [import_key_and_check_status] does, it does to the keyring. *)
Lemma import_key_frame (key : string) (s : State) :
  match import_key_and_check_status key s with
  | Ret _ s' | Raise _ s' =>
      self s' = self s /\ fs s' = fs s /\ stdout s' = stdout s
  end.
Proof.
  unfold import_key_and_check_status, bind, get_self, subscript, op_import.
  destruct (signing_keys (paths (self s)) !! key) as [impkey|]; [|done].
  unfold ret at 1.
  destruct (fs s !! impkey) as [[|data]|]; [done | | done].
  destruct (gpg_import (keyring s) data) as [[|[result|]] kr]; [done | | done].
  cbn [with_keyring self].
  destruct (fingerprints (self s) !! key) as [expected|]; [|done].
  unfold ret at 1.
  destruct (imports result) as [|first rest]; [done|].
  cbn [first_item]. unfold ret at 1.
  destruct (fpr first) as [reported|]; [|done].
  cbn [as_container]. unfold ret at 1.
  by destruct (str_contains expected reported).
Qed.

(** X1: whatever [import_key_and_check_status] returns or raises, it has
    changed nothing but the keyring: the object, every file and what has
    been printed are as before, and the keyring is what the engine left
    after the key file was fed to it (the old keyring when there was no key
    file to feed). *)
Theorem import_key_touches_only_keyring (key : string) (s : State) :
  match import_key_and_check_status key s with
  | Ret _ s' | Raise _ s' =>
      self s' = self s /\ fs s' = fs s /\ stdout s' = stdout s /\
      keyring s'
      = match signing_keys (paths (self s)) !! key with
        | Some impkey =>
            match fs s !! impkey with
            | Some (File data) => (gpg_import (keyring s) data).2
            | _ => keyring s
            end
        | None => keyring s
        end
  end.
Proof.
  unfold import_key_and_check_status, bind, get_self, subscript, op_import.
  destruct (signing_keys (paths (self s)) !! key) as [impkey|]; [|done].
  unfold ret at 1.
  destruct (fs s !! impkey) as [[|data]|]; [done | | done].
  destruct (gpg_import (keyring s) data) as [[|[result|]] kr]; [done | | done].
  cbn [with_keyring self].
  destruct (fingerprints (self s) !! key) as [expected|]; [|done].
  unfold ret at 1.
  destruct (imports result) as [|first rest]; [done|].
  cbn [first_item]. unfold ret at 1.
  destruct (fpr first) as [reported|]; [|done].
  cbn [as_container]. unfold ret at 1.
  by destruct (str_contains expected reported).
Qed.

(** X2: when the key file is missing or is a directory, when the engine's
    import raises, and when the engine gives no result object,
    [import_key_and_check_status] returns [False] and does not raise. *)
Theorem import_key_refuses_without_result (key impkey : string) (s : State) :
  signing_keys (paths (self s)) !! key = Some impkey ->
  match fs s !! impkey with
  | Some (File data) =>
      (gpg_import (keyring s) data).1 = EngineError \/
      (gpg_import (keyring s) data).1 = EngineDone None
  | _ => True
  end ->
  import_key_and_check_status key s
  = Ret false
      match fs s !! impkey with
      | Some (File data) => with_keyring (gpg_import (keyring s) data).2 s
      | _ => s
      end.
Proof.
  intros Hpath Hnone.
  unfold import_key_and_check_status, bind, get_self, subscript, op_import.
  rewrite Hpath. unfold ret at 1.
  destruct (fs s !! impkey) as [[|data]|]; [done | | done].
  destruct (gpg_import (keyring s) data) as [reply kr].
  by destruct Hnone as [Hreply|Hreply]; cbn in Hreply; subst reply.
Qed.

(** X3: [import_keys] imports the packaged key and no other. It returns
    what [import_key_and_check_status] returned for that key; when that is
    [False] it prints the expected fingerprint and then the summary line;
    an exception of the import leaves [import_keys] too. *)
Theorem import_keys_follows_packaged_key (s : State) (expected : string) :
  fingerprints (self s) !! "tor_browser_developers" = Some expected ->
  import_keys s
  = match import_key_and_check_status "tor_browser_developers" s with
    | Ret true s' => Ret true s'
    | Ret false s' =>
        Ret false
          (printed "Not all keys were imported successfully!"
             (printed ("Could not import key with fingerprint: " +:+ expected +:+ ".") s'))
    | Raise e s' => Raise e s'
    end.
Proof.
  intros Hfp. unfold import_keys. cbn [import_keys_loop].
  pose proof (import_key_frame "tor_browser_developers" s) as Hframe.
  unfold bind at 1 2.
  destruct (import_key_and_check_status "tor_browser_developers" s)
    as [[] s'|e s']; [done | | done].
  destruct Hframe as (Hself & _).
  unfold bind, get_self, subscript. rewrite Hself, Hfp. done.
Qed.


(** X4: when [self.proxies()] returns and the response has status 200, the
    file that the [wkd_tmp] entry names holds the body of the response
    after [refresh_keyring], whether the import then succeeds, fails or
    raises: the fetched material is never removed. *)
Theorem refresh_keyring_keeps_fetched_material (r : response) (s s1 : State)
    (p : value) (wkd_tmp : string) :
  proxies s = Ret p s1 ->
  status_code r = 200 ->
  signing_keys (paths (self s)) !! "wkd_tmp" = Some wkd_tmp ->
  fs s !! wkd_tmp <> Some Dir ->
  match refresh_keyring r s with
  | Ret _ s' | Raise _ s' => fs s' !! wkd_tmp = Some (File (content r))
  end.
Proof.
  intros Hproxies Hstatus Hpath Hnodir. unfold refresh_keyring. step.
  step_with ltac:(by eapply proxies_printed).
  rewrite Hstatus. change (negb (200 =? 200)) with false. cbv iota.
  step. step_with ltac:(by apply subscript_Some).
  step_with ltac:(by apply write_file_ok).
  unfold bind at 1.
  match goal with
  | |- context [import_key_and_check_status "wkd_tmp" ?s1] =>
      pose proof (import_key_frame "wkd_tmp" s1) as Hframe;
      destruct (import_key_and_check_status "wkd_tmp" s1) as [b s2|e s2]
  end.
  all: destruct Hframe as (_ & Hfs & _).
  all: try step.
  all: cbn [ret printed self fs with_fs] in *.
  all: rewrite Hfs; apply lookup_insert_eq.
Qed.

End KeyFrame.

Section KeyVerdict.
Context `{Host}.

(** X5: [import_key_and_check_status] returns [True] in one situation
    only: the key has a key file, the engine imported it and gave a result,
    and the fingerprint reported for the first imported key contains the
    fingerprint that the registry expects for that key. *)
Theorem import_key_accepts_only_pinned (key : string) (s : State) :
  (exists s', import_key_and_check_status key s = Ret true s') <->
  exists (impkey data expected reported : string) (result : import_result)
         (first : import_status) (rest : list import_status),
    signing_keys (paths (self s)) !! key = Some impkey /\
    fs s !! impkey = Some (File data) /\
    (gpg_import (keyring s) data).1 = EngineDone (Some result) /\
    fingerprints (self s) !! key = Some expected /\
    imports result = first :: rest /\
    fpr first = Some reported /\
    str_contains expected reported = true.
Proof.
  split.
  - intros [s' Hrun]. revert Hrun.
    unfold import_key_and_check_status, bind, get_self, subscript, op_import.
    destruct (signing_keys (paths (self s)) !! key) as [impkey|] eqn:Hpath; [|done].
    unfold ret at 1.
    destruct (fs s !! impkey) as [[|data]|] eqn:Hfile; [done | | done].
    destruct (gpg_import (keyring s) data) as [[|[result|]] kr] eqn:Hgpg;
      [done | | done].
    cbn [with_keyring self].
    destruct (fingerprints (self s) !! key) as [expected|] eqn:Hfp; [|done].
    unfold ret at 1.
    destruct (imports result) as [|first rest] eqn:Himports; [done|].
    cbn [first_item]. unfold ret at 1.
    destruct (fpr first) as [reported|] eqn:Hfpr; [|done].
    cbn [as_container]. unfold ret at 1.
    destruct (str_contains expected reported) eqn:Hin; [|done].
    intros _. exists impkey, data, expected, reported, result, first, rest.
    by rewrite Hgpg.
  - intros (impkey & data & expected & reported & result & first & rest &
            Hpath & Hfile & Hgpg & Hfp & Himports & Hfpr & Hin).
    destruct (gpg_import (keyring s) data) as [reply kr] eqn:Hrun.
    cbn in Hgpg. subst reply. exists (with_keyring kr s).
    rewrite <- Hin. by eapply import_key_verdict.
Qed.

End KeyVerdict.

(** X2, witness: no packaged key file at all, and an empty one, on which
    the engine's import raises. *)
Lemma import_key_refuses_without_result_witness :
  let dev := "/usr/share/torbrowser-launcher/tor-browser-developers.asc" in
  let absent := Demo.state [] in
  let empty := Demo.state [(dev, File EmptyString)] in
  import_key_and_check_status "tor_browser_developers" absent = Ret false absent /\
  import_key_and_check_status "tor_browser_developers" empty = Ret false empty.
Proof.
  intros dev absent empty. split.
  - apply (import_key_refuses_without_result "tor_browser_developers" dev absent).
    + reflexivity.
    + exact I.
  - exact (import_key_refuses_without_result "tor_browser_developers" dev empty
             eq_refl (or_introl eq_refl)).
Defined.

(** X3, witness: the packaged key file is missing. *)
Lemma import_keys_follows_packaged_key_witness :
  let s := Demo.state [] in
  import_keys s
  = match import_key_and_check_status "tor_browser_developers" s with
    | Ret true s' => Ret true s'
    | Ret false s' =>
        Ret false
          (printed "Not all keys were imported successfully!"
             (printed ("Could not import key with fingerprint: " +:+
                       tor_browser_developers_fingerprint +:+ ".") s'))
    | Raise e s' => Raise e s'
    end.
Proof.
  intros s.
  apply (import_keys_follows_packaged_key s tor_browser_developers_fingerprint).
  reflexivity.
Defined.

(** X4, witness: the settings are loaded, and the server answers 200 with
    a page that is no key. *)
Lemma refresh_keyring_keeps_fetched_material_witness :
  let s := Demo.loaded [] in
  let r := Response 200 "<html>moved</html>" in
  match refresh_keyring r s with
  | Ret _ s' | Raise _ s' => fs s' !! Demo.wkd_tmp = Some (File (content r))
  end.
Proof.
  intros s r.
  apply (refresh_keyring_keeps_fetched_material r s s VNone Demo.wkd_tmp).
  - reflexivity.
  - reflexivity.
  - reflexivity.
  - discriminate.
Defined.

(** ** The mirror list: trimmed entries and a directory among the sources *)

Lemma app_assoc_string (s t u : string) : (s +:+ t) +:+ u = s +:+ t +:+ u.
Proof. induction s as [|c s IH]; [done|]. by rewrite !app_cons, IH. Qed.

Lemma rev_app_spec (s acc : string) : String.rev_app s acc = String.rev s +:+ acc.
Proof.
  revert acc. induction s as [|c s IH]; intros acc; [done|].
  unfold String.rev. cbn [String.rev_app]. rewrite !IH.
  by rewrite app_assoc_string.
Qed.

Lemma rev_cons (c : ascii) (s : string) :
  String.rev (String c s) = String.rev s +:+ String c EmptyString.
Proof. unfold String.rev at 1. cbn [String.rev_app]. apply rev_app_spec. Qed.

Lemma rev_append (s t : string) : String.rev (s +:+ t) = String.rev t +:+ String.rev s.
Proof.
  induction s as [|c s IH].
  - by rewrite app_empty_l, app_empty_r.
  - rewrite app_cons, !rev_cons, IH. by rewrite app_assoc_string.
Qed.

Lemma rev_involutive (s : string) : String.rev (String.rev s) = s.
Proof.
  induction s as [|c s IH]; [done|]. by rewrite rev_cons, rev_append, IH.
Qed.

Lemma lstrip_split (s : string) :
  exists w, s = w +:+ lstrip s /\
            match lstrip s with
            | String c _ => is_space c = false
            | EmptyString => True
            end.
Proof.
  induction s as [|c s (w & Hw & Hhead)]; [by exists EmptyString|].
  cbn [lstrip]. destruct (is_space c) eqn:Hc.
  - exists (String c w). split; [|done]. by rewrite app_cons, <- Hw.
  - by exists EmptyString.
Qed.

Lemma lstrip_fixed (s : string) :
  match s with String c _ => is_space c = false | EmptyString => True end ->
  lstrip s = s.
Proof. destruct s as [|c s]; [done|]. cbn [lstrip]. by intros ->. Qed.

(** [strip] leaves nothing for a second [strip] to remove. *)
Lemma strip_idempotent (s : string) : strip (strip s) = strip s.
Proof.
  unfold strip.
  destruct (lstrip_split s) as (_ & _ & Hhead). set (t := lstrip s) in *.
  destruct (lstrip_split (String.rev t)) as (w & Hw & Htail).
  set (u := lstrip (String.rev t)) in *.
  assert (Ht : t = String.rev u +:+ String.rev w).
  { by rewrite <- rev_append, <- Hw, rev_involutive. }
  assert (Hfix : lstrip (String.rev u) = String.rev u).
  { apply lstrip_fixed. destruct (String.rev u) as [|c r] eqn:Hr; [done|].
    rewrite Ht, app_cons in Hhead. exact Hhead. }
  rewrite Hfix, rev_involutive. f_equal. by apply lstrip_fixed.
Qed.

Lemma add_mirrors_trimmed (lines acc : list string) :
  Forall (fun m => strip m = m) acc ->
  Forall (fun m => strip m = m) (add_mirrors lines acc).
Proof.
  revert acc. induction lines as [|line lines IH]; intros acc Hacc; [done|].
  cbn [add_mirrors]. apply IH. case_bool_decide; [done|].
  apply Forall_app. split; [done|]. constructor; [|done]. apply strip_idempotent.
Qed.

(** X6: whatever the source files hold, and also when the loading stops
    with an exception, no entry of [self.mirrors] has white space at either
    end: every entry is its own [strip]. *)
Theorem load_mirrors_entries_trimmed (s : State) :
  match load_mirrors s with
  | Ret _ s' | Raise _ s' => Forall (fun m => strip m = m) (mirrors (self s'))
  end.
Proof.
  unfold load_mirrors. step. step.
  assert (Hloop : forall srcfiles s0,
             Forall (fun m => strip m = m) (mirrors (self s0)) ->
             match load_mirrors_loop srcfiles s0 with
             | Ret _ s' | Raise _ s' => Forall (fun m => strip m = m) (mirrors (self s'))
             end).
  { induction srcfiles as [|srcfile srcfiles IH]; intros s0 Hs0; [done|].
    cbn [load_mirrors_loop]. unfold bind at 1, try_pass, read_mirrors.
    unfold bind at 1, read_file.
    destruct (fs s0 !! srcfile) as [[|text]|]; cbn [is_FileNotFoundError];
      [done | | by apply IH].
    apply IH. cbn. by apply add_mirrors_trimmed. }
  by apply Hloop.
Qed.

Lemma load_mirrors_loop_app (l1 l2 : list string) (s : State) :
  load_mirrors_loop (l1 ++ l2) s
  = bind (load_mirrors_loop l1) (fun _ => load_mirrors_loop l2) s.
Proof.
  revert s. induction l1 as [|p l1 IH]; intros s; [done|].
  cbn [app load_mirrors_loop]. unfold bind.
  destruct (try_pass _ _ s) as [[] s1|e s1]; [|done]. by rewrite IH.
Qed.

(** X7: a directory among the source files is not skipped as a missing
    file is: [load_mirrors] raises [IsADirectoryError] there, and
    [self.mirrors] is left with the entries of the files before it. *)
Theorem load_mirrors_directory_source
    (s : State) (before after : list string) (srcdir : string) :
  mirrors_txt (paths (self s)) = before ++ srcdir :: after ->
  Forall (fun srcfile => fs s !! srcfile <> Some Dir) before ->
  fs s !! srcdir = Some Dir ->
  load_mirrors s
  = Raise IsADirectoryError
      (with_self (set_mirrors (first_occurrences (mirror_lines (fs s) before))) s).
Proof.
  intros Hsrc Hbefore Hdir. unfold load_mirrors. step. step.
  autorewrite with state. change (paths (set_mirrors [] (self s))) with (paths (self s)).
  rewrite Hsrc, load_mirrors_loop_app.
  erewrite bind_Ret by (by apply load_mirrors_loop_spec).
  cbn [load_mirrors_loop]. erewrite bind_Raise; [reflexivity|].
  unfold try_pass, read_mirrors. erewrite bind_Raise.
  2: { unfold read_file. autorewrite with state. by rewrite Hdir. }
  cbn [is_FileNotFoundError]. f_equal.
  cbn [with_self self fs set_mirrors mirrors paths].
  by rewrite add_mirrors_first_occurrences, filter_not_elem_of_nil, mirror_lines_fmap.
Qed.

(** X7, witness: the packaged list is a file and the user's list is a
    directory. *)
Lemma load_mirrors_directory_source_witness :
  let user_mirrors := "/home/user/.config/torbrowser/mirrors.txt" in
  let s := Demo.state
             [(Demo.share_mirrors, File ("https://a.example/" +:+ Demo.lf));
              (user_mirrors, Dir)] in
  load_mirrors s
  = Raise IsADirectoryError
      (with_self
         (set_mirrors (first_occurrences (mirror_lines (fs s) [Demo.share_mirrors])))
         s).
Proof.
  intros user_mirrors s.
  apply (load_mirrors_directory_source s [Demo.share_mirrors] [] user_mirrors).
  - reflexivity.
  - repeat constructor. discriminate.
  - reflexivity.
Defined.

(** ** The layout: files that cannot coincide *)

(** Two joined paths whose names end in different characters differ: seen
    from the end, they part at the first character. *)
Ltac last_differs :=
  let Heq := fresh "Heq" in
  intros Heq; apply (f_equal String.rev) in Heq; unfold pjoin in Heq;
  rewrite !rev_append in Heq; vm_compute in Heq; discriminate Heq.

(** The files of the layout, other than the mirror lists, are six
    different paths whatever the base directories are. *)
Lemma build_paths_layout (b : Bases) (c : Common) :
  let p := paths (build_paths b c) in
  NoDup [pjoin (SHARE b) "tor-browser-developers.asc";
         pjoin (tbb_cache b) "torbrowser.gpg";
         settings_file p; settings_file_pickle p; tbb_start p; gnupg_homedir p].
Proof.
  cbn [build_paths paths settings_file settings_file_pickle tbb_start gnupg_homedir].
  repeat (apply NoDup_cons; split); [..|apply NoDup_nil_2];
    rewrite ?elem_of_cons, ?elem_of_nil;
    intros Hin; repeat destruct Hin as [Hin|Hin]; try done;
    revert Hin; last_differs.
Qed.

(** X8: the files that the layout names cannot coincide, whatever the base
    directories and the architecture are: the packaged key, the fetched
    key, the two settings files, the browser's start file and the GnuPG
    home are six different paths, and neither mirror list is one of them. *)
Theorem build_paths_files_distinct (b : Bases) (c : Common) :
  let p := paths (build_paths b c) in
  let dev := pjoin (SHARE b) "tor-browser-developers.asc" in
  let wkd := pjoin (tbb_cache b) "torbrowser.gpg" in
  signing_keys p !! "tor_browser_developers" = Some dev /\
  signing_keys p !! "wkd_tmp" = Some wkd /\
  NoDup [dev; wkd; settings_file p; settings_file_pickle p; tbb_start p;
         gnupg_homedir p] /\
  Forall (fun m => m ∉ [dev; wkd; settings_file p; settings_file_pickle p;
                        tbb_start p; gnupg_homedir p]) (mirrors_txt p).
Proof.
  intros p dev wkd. split_and!.
  - subst p dev. cbn [build_paths paths signing_keys].
    by rewrite lookup_insert_ne, lookup_insert_eq.
  - subst p wkd. cbn [build_paths paths signing_keys]. by rewrite lookup_insert_eq.
  - apply build_paths_layout.
  - subst p dev wkd. cbn [build_paths paths settings_file settings_file_pickle
      tbb_start gnupg_homedir mirrors_txt].
    repeat (apply Forall_cons; split); [..|apply Forall_nil_2];
      rewrite ?elem_of_cons, ?elem_of_nil;
      intros Hin; repeat destruct Hin as [Hin|Hin]; try done;
      revert Hin; last_differs.
Qed.

Section RefreshLayout.
Context `{Host}.


End RefreshLayout.


(** ** The settings store: outcomes, fixed points and what survives *)

Section SettingsExtras.
Context `{Host}.

(** Every key of the defaults is bound once [installed] has been set and
    the missing keys have been filled in. *)
Lemma backfill_run (c : Common) (d1 : dict) (s : State) :
  exists d2,
    backfill (default_settings c) (missing_settings (default_settings c) d1) d1 s
    = Ret d2 s /\
    (forall k, dict_get d2 k
               = match dict_get d1 k with
                 | Some v => Some v
                 | None => dict_get (default_settings c) k
                 end).
Proof.
  destruct (backfill_spec (default_settings c)
              (missing_settings (default_settings c) d1) d1 s) as (d2 & Hrun & Hget).
  { intros k [Hk _]%missing_settings_elem_of. by apply dict_get_keys. }
  exists d2. split; [done|]. intros k. rewrite Hget.
  destruct (decide (k ∈ _)) as [[Hk Hnone]%missing_settings_elem_of|Hk].
  - by rewrite Hnone.
  - destruct (dict_get d1 k) eqn:Hk1; [done|].
    destruct (dict_get (default_settings c) k) eqn:Hkd; [|done].
    exfalso. apply Hk, missing_settings_elem_of. split; [|done].
    apply dict_get_keys. eauto.
Qed.

(** The [else] block run forwards on a dict. [a] is the address after the
    backfill. *)
Lemma normalise_settings_dict (d0 : dict) (s : State) :
  let c := self s in
  let d1 := dict_set d0 "installed" (VBool (file_exists (fs s) (tbb_start (paths c)))) in
  match match dict_get d0 "tor_socks_address" with
        | Some v => v
        | None => VStr "127.0.0.1:9050"
        end with
  | VStr a =>
      exists d,
        normalise_settings (VDict d0) s
        = (if (startswith a "tcp:"
               || match missing_settings (default_settings c) d1 with
                  | [] => false
                  | _ => true
                  end
               || match dict_get d0 "tbl_version" with
                  | Some v => differs_from v (tbl_version c)
                  | None => false
                  end)%bool
           then fun s1 => match save_settings s1 with
                          | Ret _ s2 => Ret tt s2
                          | Raise e s2 => Raise e s2
                          end
           else Ret tt) (with_self (set_settings (VDict d)) s) /\
        (startswith a "tcp:" = false ->
         missing_settings (default_settings c) d1 = [] ->
         dict_get d0 "tbl_version" = Some (VStr (tbl_version c)) ->
         d = d1)
  | _ => normalise_settings (VDict d0) s = Raise AttributeError s
  end.
Proof.
  intros c d1. unfold normalise_settings. 
  destruct (backfill_run c d1 s) as (d2 & Hfill & Hd2).
  assert (Haddr : dict_get d2 "tor_socks_address"
                  = Some match dict_get d0 "tor_socks_address" with
                         | Some v => v
                         | None => VStr "127.0.0.1:9050"
                         end).
  { rewrite Hd2. subst d1. rewrite dict_get_set_ne by done.
    by destruct (dict_get d0 "tor_socks_address"). }
  destruct (match dict_get d0 "tor_socks_address" with
            | Some v => v
            | None => VStr "127.0.0.1:9050"
            end) as [| | |a| |] eqn:Hv.
  1-3, 5-6: step; step; step; fold c d1; step_with ltac:(exact Hfill);
    (step_with ltac:(unfold getitem; rewrite Haddr; reflexivity));
    by erewrite bind_Raise by reflexivity.
  step. step. step. fold c d1. step_with ltac:(exact Hfill).
  step_with ltac:(unfold getitem; rewrite Haddr; reflexivity). step.
  set (d3 := if startswith a "tcp:" then _ else d2).
  assert (Hversion : dict_get d3 "tbl_version"
                     = Some match dict_get d0 "tbl_version" with
                            | Some v => v
                            | None => VStr (tbl_version c)
                            end).
  { subst d3. destruct (startswith a "tcp:"); rewrite ?dict_get_set_ne by done;
      rewrite Hd2; subst d1; rewrite dict_get_set_ne by done;
      by destruct (dict_get d0 "tbl_version"). }
  step_with ltac:(unfold getitem; rewrite Hversion; reflexivity).
  set (version := match dict_get d0 "tbl_version" with
                  | Some v => v
                  | None => VStr (tbl_version c)
                  end) in *.
  set (d4 := if differs_from version (tbl_version c) then _ else d3).
  exists d4. split.
  - step.
    assert (Hstale : differs_from version (tbl_version c)
                     = match dict_get d0 "tbl_version" with
                       | Some v => differs_from v (tbl_version c)
                       | None => false
                       end).
    { subst version. destruct (dict_get d0 "tbl_version"); [done|].
      cbn [differs_from]. by rewrite String.eqb_refl. }
    rewrite <- Hstale.
    replace (differs_from version (tbl_version c)
             || (startswith a "tcp:"
                 || match missing_settings (default_settings c) d1 with
                    | [] => false
                    | _ :: _ => true
                    end))%bool
      with (startswith a "tcp:"
            || match missing_settings (default_settings c) d1 with
               | [] => false
               | _ :: _ => true
               end
            || differs_from version (tbl_version c))%bool
      by (by destruct (startswith a "tcp:"), (differs_from version (tbl_version c)),
             (missing_settings (default_settings c) d1)).
    destruct (_ || _ || _)%bool; [|done].
    unfold bind. by destruct (save_settings _) as [? ?|? ?].
  - intros Htcp Hmissing Hv0. subst d4 d3 version. rewrite Htcp, Hv0.
    cbn [differs_from]. rewrite String.eqb_refl. cbn [negb].
    rewrite Hmissing in Hfill. by injection Hfill as <-.
Qed.

(** With the JSON file there, an exception leaves everything as it was. *)
Lemma load_settings_json_raise (fuel : nat) (s s' : State) (text : string) (e : exn) :
  fs s !! settings_file (paths (self s)) = Some (File text) ->
  load_settings (S fuel) s = Some (Raise e s') ->
  s' = s.
Proof.
  intros Hjson. cbn [load_settings]. rewrite read_json_settings_eq, Hjson.
  destruct (json_loads text) as [loaded|]; [|by intros [= _ <-]].
  destruct loaded as [| | | | |d0]; try by intros [= _ <-].
  pose proof (normalise_settings_dict d0 s) as Hnorm. cbn zeta in Hnorm.
  destruct (match dict_get d0 "tor_socks_address" with
            | Some v => v
            | None => VStr "127.0.0.1:9050"
            end) as [| | |a| |];
    try (rewrite Hnorm; by intros [= _ <-]).
  destruct Hnorm as (d & -> & _).
  destruct (_ || _ || _)%bool; [|done].
  rewrite save_settings_ok with (current := VDict d); [done | done |].
  autorewrite with state. by rewrite Hjson.
Qed.

(** X10: the outcomes of [load_settings] on a settings file that can be
    read. It returns only if the file holds a JSON object whose
    [tor_socks_address], if present, is a string. Otherwise it raises with
    the object and the files unchanged: [JSONDecodeError] for text that is
    not JSON, [TypeError] for a JSON value that is not an object, and
    [AttributeError] for an address that is not a string. One level of the
    call always suffices. *)
Theorem load_settings_outcome (fuel : nat) (s : State) (text : string) :
  fs s !! settings_file (paths (self s)) = Some (File text) ->
  match load_settings (S fuel) s with
  | Some (Ret _ s') =>
      exists d, json_loads text = Some (VDict d) /\
                forall v, dict_get d "tor_socks_address" = Some v -> exists a, v = VStr a
  | Some (Raise e s') =>
      s' = s /\
      (e = JSONDecodeError /\ json_loads text = None \/
       e = TypeError /\
         (exists v, json_loads text = Some v /\ forall d, v <> VDict d) \/
       e = AttributeError /\
         (exists d v, json_loads text = Some (VDict d) /\
                      dict_get d "tor_socks_address" = Some v /\
                      forall a, v <> VStr a))
  | None => False
  end.
Proof.
  intros Hjson. cbn [load_settings]. rewrite read_json_settings_eq, Hjson.
  destruct (json_loads text) as [loaded|] eqn:Hloads;
    [|cbn [is_missing]; split; [done|]; by left].
  destruct loaded as [| | | | |d0].
  1-5: split; [reflexivity|]; right; left; split; [reflexivity|];
       eexists; split; [reflexivity|]; by intros d.
  pose proof (normalise_settings_dict d0 s) as Hnorm. cbn zeta in Hnorm.
  destruct (dict_get d0 "tor_socks_address") as [v|] eqn:Haddr.
  - destruct v as [| | |a| |].
    1-3, 5-6: rewrite Hnorm; split; [done|]; right; right; split; [done|];
      eexists _, _; split_and!; [done | done | by intros a].
    destruct Hnorm as (d & -> & _).
    destruct (_ || _ || _)%bool.
    + rewrite save_settings_ok with (current := VDict d); [| done |].
      * exists d0. split; [done|]. intros v ?. simplify_eq. eauto.
      * autorewrite with state. by rewrite Hjson.
    + exists d0. split; [done|]. intros v ?. simplify_eq. eauto.
  - destruct Hnorm as (d & -> & _).
    destruct (_ || _ || _)%bool.
    + rewrite save_settings_ok with (current := VDict d); [| done |].
      * exists d0. split; [done|]. intros v ?. simplify_eq.
      * autorewrite with state. by rewrite Hjson.
    + exists d0. split; [done|]. intros v ?. simplify_eq.
Qed.

(** A record that needs no repair is installed and not written back. *)
Lemma load_settings_current
    (fuel : nat) (s : State) (text a : string) (d : dict) :
  fs s !! settings_file (paths (self s)) = Some (File text) ->
  json_loads text = Some (VDict d) ->
  Forall (fun k => is_Some (dict_get d k)) (keys (default_settings (self s))) ->
  dict_get d "tor_socks_address" = Some (VStr a) ->
  startswith a "tcp:" = false ->
  dict_get d "tbl_version" = Some (VStr (tbl_version (self s))) ->
  load_settings (S fuel) s
  = Some (Ret tt
            (with_self
               (set_settings
                  (VDict (dict_set d "installed"
                            (VBool (file_exists (fs s) (tbb_start (paths (self s))))))))
               s)).
Proof.
  intros Hjson Hloads Hall Haddr Htcp Hversion. cbn [load_settings].
  rewrite read_json_settings_eq, Hjson, Hloads.
  pose proof (normalise_settings_dict d s) as Hnorm. cbn zeta in Hnorm.
  rewrite Haddr in Hnorm. destruct Hnorm as (d' & -> & Hd').
  assert (Hmissing : missing_settings (default_settings (self s))
                       (dict_set d "installed"
                          (VBool (file_exists (fs s) (tbb_start (paths (self s)))))) = []).
  { apply missing_settings_nil. eapply Forall_impl; [exact Hall|].
    intros k [v Hv]. rewrite dict_get_set. case_decide; eauto. }
  rewrite (Hd' Htcp Hmissing Hversion), Htcp, Hmissing, Hversion.
  cbn [differs_from]. by rewrite String.eqb_refl.
Qed.

(** X11: a record that needs no repair is not written back, and loading
    again changes nothing at all. *)
Theorem load_settings_writes_nothing_when_current
    (fuel : nat) (s : State) (text a : string) (d : dict) :
  fs s !! settings_file (paths (self s)) = Some (File text) ->
  json_loads text = Some (VDict d) ->
  Forall (fun k => is_Some (dict_get d k)) (keys (default_settings (self s))) ->
  dict_get d "tor_socks_address" = Some (VStr a) ->
  startswith a "tcp:" = false ->
  dict_get d "tbl_version" = Some (VStr (tbl_version (self s))) ->
  let loaded :=
    with_self
      (set_settings
         (VDict (dict_set d "installed"
                   (VBool (file_exists (fs s) (tbb_start (paths (self s))))))))
      s in
  load_settings (S fuel) s = Some (Ret tt loaded) /\
  fs loaded = fs s /\
  load_settings (S fuel) loaded = Some (Ret tt loaded).
Proof.
  intros Hjson Hloads Hall Haddr Htcp Hversion loaded. split_and!.
  - by eapply load_settings_current.
  - done.
  - by rewrite (load_settings_current fuel loaded text a d).
Qed.

(** X12: a complete record that [save_settings] wrote comes back from
    [load_settings] as it was saved, but for [installed], which is set to
    what is on disk; the file is not written a second time. The codec is
    assumed to read back what it wrote for this record. *)
Theorem save_then_load_settings (fuel : nat) (s : State) (a : string) (d : dict) :
  settings (self s) = Some (VDict d) ->
  fs s !! settings_file (paths (self s)) <> Some Dir ->
  tbb_start (paths (self s)) <> settings_file (paths (self s)) ->
  json_loads (json_dumps (VDict d)) = Some (VDict d) ->
  Forall (fun k => is_Some (dict_get d k)) (keys (default_settings (self s))) ->
  dict_get d "tor_socks_address" = Some (VStr a) ->
  startswith a "tcp:" = false ->
  dict_get d "tbl_version" = Some (VStr (tbl_version (self s))) ->
  let saved := with_fs (insert (settings_file (paths (self s)))
                          (File (json_dumps (VDict d)))) s in
  save_settings s = Ret true saved /\
  load_settings (S fuel) saved
  = Some (Ret tt
            (with_self
               (set_settings
                  (VDict (dict_set d "installed"
                            (VBool (file_exists (fs s) (tbb_start (paths (self s))))))))
               saved)).
Proof.
  intros Hcur Hnodir Hstart Hround Hall Haddr Htcp Hversion saved. split.
  - by apply save_settings_ok.
  - rewrite (load_settings_current fuel saved
               (json_dumps (VDict d)) a d); try done.
    + do 5 f_equal. unfold file_exists. subst saved. autorewrite with state.
      by rewrite lookup_insert_ne.
    + subst saved. autorewrite with state. apply lookup_insert_eq.
Qed.

(** X13: what the settings file says stays. After [load_settings] has
    returned, every field of the file other than [installed],
    [tor_socks_address] and [tbl_version] has the value it had in the
    file, also a field that the defaults do not know; no field appears
    that is neither in the file nor in the defaults; and an address that
    does not start with [tcp:] is kept as it is. *)
Theorem load_settings_keeps_file_values
    (fuel : nat) (s s' : State) (text : string) (loaded : dict) :
  fs s !! settings_file (paths (self s)) = Some (File text) ->
  json_loads text = Some (VDict loaded) ->
  load_settings (S fuel) s = Some (Ret tt s') ->
  exists d,
    settings (self s') = Some (VDict d) /\
    (forall k v,
       dict_get loaded k = Some v ->
       k <> "installed" -> k <> "tor_socks_address" -> k <> "tbl_version" ->
       dict_get d k = Some v) /\
    (forall k,
       dict_get loaded k = None ->
       dict_get (default_settings (self s)) k = None ->
       dict_get d k = None) /\
    (forall a,
       dict_get loaded "tor_socks_address" = Some (VStr a) ->
       startswith a "tcp:" = false ->
       dict_get d "tor_socks_address" = Some (VStr a)).
Proof.
  intros Hjson Hloads Hload. cbn [load_settings] in Hload.
  rewrite read_json_settings_eq, Hjson, Hloads in Hload. injection Hload as Hnorm.
  apply normalise_settings_inv in Hnorm
    as (d0 & d & a' & [= <-] & Ha & Hself & _ & _ & _ & _ & Hget).
  exists d. split_and!.
  - by rewrite Hself.
  - intros k v Hk ? ? ?. rewrite Hget, !decide_False by done. by rewrite Hk.
  - intros k Hk Hdef. rewrite Hget.
    destruct (decide (k = "tbl_version")) as [->|?]; [done|].
    destruct (decide (k = "tor_socks_address")) as [->|?]; [done|].
    destruct (decide (k = "installed")) as [->|?]; [done|].
    by rewrite Hk.
  - intros a Haddr Htcp. rewrite Haddr in Ha. injection Ha as <-.
    rewrite Hget, Htcp. by rewrite decide_False, decide_True.
Qed.

(** X14: when the settings path is a directory and there is no legacy
    file, [load_settings] does not return: it assigns the defaults to
    [self.settings] and the write of [save_settings] raises
    [IsADirectoryError], which nothing catches. The files are unchanged. *)
Theorem load_settings_directory_in_the_way (fuel : nat) (s : State) :
  fs s !! settings_file (paths (self s)) = Some Dir ->
  fs s !! settings_file_pickle (paths (self s)) = None \/
  fs s !! settings_file_pickle (paths (self s)) = Some Dir ->
  load_settings (S fuel) s
  = Some (Raise IsADirectoryError
            (with_self (set_settings (VDict (default_settings (self s)))) s)).
Proof.
  intros Hjson Hpickle. rewrite load_settings_json_missing by eauto.
  assert (install_defaults s
          = Raise IsADirectoryError
              (with_self (set_settings (VDict (default_settings (self s)))) s)) as Hinst.
  { unfold install_defaults. step. step.
    erewrite bind_Raise; [done|].
    unfold save_settings. step. erewrite bind_Raise; [done|].
    unfold write_file. autorewrite with state. by rewrite Hjson. }
  by destruct Hpickle as [-> | ->]; rewrite Hinst.
Qed.

Lemma save_settings_files (s : State) :
  match save_settings s with
  | Ret _ s' | Raise _ s' =>
      self s' = self s /\
      (fs s' = fs s \/
       exists text, fs s' = <[settings_file (paths (self s)) := File text]> (fs s))
  end.
Proof.
  unfold save_settings. step. unfold bind at 1, write_file at 1.
  destruct (fs s !! settings_file (paths (self s))) as [[|old]|];
    [by split; [|left] | |].
  all: unfold bind at 1, attribute.
  all: autorewrite with state.
  all: destruct (settings (self s)) as [current|]; [|by split; [|right; eexists]].
  all: unfold ret at 1.
  all: erewrite bind_Ret
    by (apply write_file_ok; autorewrite with state; by rewrite lookup_insert_eq).
  all: unfold ret; split; [done|]; right; eexists.
  all: autorewrite with state; by rewrite insert_insert_eq.
Qed.

(** With the JSON file there, [load_settings] changes no other file and
    leaves a file at that path. *)
Lemma load_settings_json_files (fuel : nat) (s : State) (text : string) :
  fs s !! settings_file (paths (self s)) = Some (File text) ->
  match load_settings (S fuel) s with
  | Some (Ret _ s') | Some (Raise _ s') =>
      (forall p, p <> settings_file (paths (self s)) -> fs s' !! p = fs s !! p) /\
      exists text', fs s' !! settings_file (paths (self s)) = Some (File text')
  | None => False
  end.
Proof.
  intros Hjson.
  pose proof (fun e s' => load_settings_json_raise fuel s s' text e Hjson) as Hraise.
  cbn [load_settings] in *. rewrite read_json_settings_eq, Hjson in *.
  destruct (json_loads text) as [loaded|]; [|cbn [is_missing]; by eauto].
  destruct (normalise_settings loaded s) as [[] s'|e s'] eqn:Hnorm.
  - apply normalise_settings_inv in Hnorm
      as (d0 & d & a & _ & _ & _ & _ & _ & [Hfs|Hfs] & _); rewrite Hfs.
    + eauto.
    + split; [intros p Hp; by rewrite lookup_insert_ne|].
      eexists. apply lookup_insert_eq.
  - rewrite (Hraise e s' eq_refl). eauto.
Qed.

(** The legacy file is not given up before the JSON file exists. *)
Lemma load_settings_legacy_files (fuel : nat) (s : State) (data : string) :
  settings_file (paths (self s)) <> settings_file_pickle (paths (self s)) ->
  fs s !! settings_file_pickle (paths (self s)) = Some (File data) ->
  match load_settings fuel s with
  | Some (Ret _ s') | Some (Raise _ s') =>
      fs s' !! settings_file_pickle (paths (self s)) = Some (File data) \/
      fs s' !! settings_file_pickle (paths (self s)) = None /\
      exists text, fs s' !! settings_file (paths (self s)) = Some (File text)
  | None => True
  end.
Proof.
  intros Hne Hpickle. destruct fuel as [|fuel]; [done|].
  destruct (fs s !! settings_file (paths (self s))) as [[|text]|] eqn:Hjson.
  2: { pose proof (load_settings_json_files fuel s text Hjson) as Hfiles.
       destruct (load_settings (S fuel) s) as [[[] s'|e s']|]; [| |done].
       all: destruct Hfiles as [Hother _]; left; by rewrite Hother. }
  all: rewrite load_settings_json_missing, Hpickle by eauto.
  all: destruct (pickle_loads data) as [legacy|]; [|by left].
  all: unfold bind at 1.
  all: pose proof (save_settings_files (with_self (set_settings legacy) s)) as Hsave.
  all: destruct (save_settings _) as [b s2|e s2] eqn:Hsaved.
  all: destruct Hsave as (Hself & Hfs).
  all: autorewrite with state in *.
  2, 4: left; destruct Hfs as [-> | [text' ->]];
        [done | by rewrite lookup_insert_ne].
  - unfold save_settings in Hsaved. apply bind_inv in Hsaved as (c & s1 & [= <- <-] & Hsaved).
    apply bind_inv in Hsaved as ([] & s1 & Hwrite & _).
    unfold write_file in Hwrite. autorewrite with state in Hwrite.
    by rewrite Hjson in Hwrite.
  - apply save_settings_inv in Hsaved as (current & [= <-] & ->).
    step. unfold unlink. autorewrite with state.
    rewrite lookup_insert_ne, Hpickle by done.
    destruct fuel as [|fuel]; [done|].
    match goal with
    | |- context [load_settings (S fuel) ?s3] =>
        pose proof (load_settings_json_files fuel s3 (json_dumps legacy)) as Hfiles
    end.
    autorewrite with state in Hfiles.
    rewrite lookup_delete_ne, lookup_insert_eq in Hfiles by done.
    specialize (Hfiles eq_refl).
    destruct (load_settings (S fuel) _) as [[[] s'|e s']|]; [| |done].
    all: destruct Hfiles as [Hother Hfile]; right; split; [|done].
    all: rewrite Hother by done; autorewrite with state; apply lookup_delete_eq.
Qed.

(** X15: [load_settings] never loses a legacy settings file. Whether it
    returns or raises, either the legacy file is still there with its
    content, or it has been deleted and the settings file exists: the
    deletion comes after the record has been written as JSON. *)
Theorem load_settings_never_loses_legacy (fuel : nat) (s : State) (data : string) :
  settings_file (paths (self s)) <> settings_file_pickle (paths (self s)) ->
  fs s !! settings_file_pickle (paths (self s)) = Some (File data) ->
  match load_settings (S (S fuel)) s with
  | Some (Ret _ s') | Some (Raise _ s') =>
      fs s' !! settings_file_pickle (paths (self s)) = Some (File data) \/
      fs s' !! settings_file_pickle (paths (self s)) = None /\
      exists text, fs s' !! settings_file (paths (self s)) = Some (File text)
  | None => False
  end.
Proof.
  intros Hne Hpickle.
  pose proof (load_settings_legacy_files (S (S fuel)) s data Hne Hpickle) as Hfiles.
  destruct (load_settings_terminates fuel s) as [o Ho].
  rewrite Ho in *. exact Hfiles.
Qed.

End SettingsExtras.

(** X10, witness: the settings file holds a JSON list. *)
Lemma load_settings_outcome_witness :
  let s := Demo.state [(Demo.settings_json, File "[]")] in
  match load_settings 1 s with
  | Some (Ret _ s') =>
      exists d, json_loads "[]" = Some (VDict d) /\
                forall v, dict_get d "tor_socks_address" = Some v -> exists a, v = VStr a
  | Some (Raise e s') =>
      s' = s /\
      (e = JSONDecodeError /\ json_loads "[]" = None \/
       e = TypeError /\
         (exists v, json_loads "[]" = Some v /\ forall d, v <> VDict d) \/
       e = AttributeError /\
         (exists d v, json_loads "[]" = Some (VDict d) /\
                      dict_get d "tor_socks_address" = Some v /\
                      forall a, v <> VStr a))
  | None => False
  end.
Proof.
  intros s. apply (load_settings_outcome 0 s "[]"). reflexivity.
Defined.

(** X11, witness: the settings file holds a complete record of the running
    version. *)
Lemma load_settings_writes_nothing_when_current_witness :
  let d := Demo.migrated "1.2.3" false in
  let s := Demo.state [(Demo.settings_json, File (json_dumps (VDict d)))] in
  let loaded :=
    with_self
      (set_settings
         (VDict (dict_set d "installed"
                   (VBool (file_exists (fs s) (tbb_start (paths (self s))))))))
      s in
  load_settings 1 s = Some (Ret tt loaded) /\
  fs loaded = fs s /\
  load_settings 1 loaded = Some (Ret tt loaded).
Proof.
  intros d s.
  apply (load_settings_writes_nothing_when_current 0 s (json_dumps (VDict d))
           "10.0.0.1:9050" d).
  - reflexivity.
  - reflexivity.
  - repeat (apply Forall_cons_2; [eexists; reflexivity|]). apply Forall_nil_2.
  - reflexivity.
  - reflexivity.
  - reflexivity.
Defined.

(** X12, witness: the record of the migration scenario is in
    [self.settings] and there is no settings file yet. *)
Lemma save_then_load_settings_witness :
  let d := Demo.migrated "1.2.3" false in
  let s := with_self (set_settings (VDict d)) (Demo.state []) in
  let saved := with_fs (insert (settings_file (paths (self s)))
                          (File (json_dumps (VDict d)))) s in
  save_settings s = Ret true saved /\
  load_settings 1 saved
  = Some (Ret tt
            (with_self
               (set_settings
                  (VDict (dict_set d "installed"
                            (VBool (file_exists (fs s) (tbb_start (paths (self s))))))))
               saved)).
Proof.
  intros d s.
  apply (save_then_load_settings 0 s "10.0.0.1:9050" d).
  - reflexivity.
  - discriminate.
  - discriminate.
  - reflexivity.
  - repeat (apply Forall_cons_2; [eexists; reflexivity|]). apply Forall_nil_2.
  - reflexivity.
  - reflexivity.
  - reflexivity.
Defined.

(** X13, witness: the settings file names a mirror and a field that the
    launcher does not know. *)
Lemma load_settings_keeps_file_values_witness :
  let loaded := [("theme", VStr "dark"); ("mirror", VStr "https://example.org/")] in
  let full := [("theme", VStr "dark");
               ("mirror", VStr "https://example.org/");
               ("installed", VBool false);
               ("tor_socks_address", VStr "127.0.0.1:9050");
               ("download_over_tor", VBool false);
               ("tbl_version", VStr "1.2.3")] in
  let s := Demo.state [(Demo.settings_json, File (json_dumps (VDict loaded)))] in
  let s' := with_fs (insert Demo.settings_json (File (json_dumps (VDict full))))
              (with_self (set_settings (VDict full)) s) in
  exists d,
    settings (self s') = Some (VDict d) /\
    (forall k v,
       dict_get loaded k = Some v ->
       k <> "installed" -> k <> "tor_socks_address" -> k <> "tbl_version" ->
       dict_get d k = Some v) /\
    (forall k,
       dict_get loaded k = None ->
       dict_get (default_settings (self s)) k = None ->
       dict_get d k = None) /\
    (forall a,
       dict_get loaded "tor_socks_address" = Some (VStr a) ->
       startswith a "tcp:" = false ->
       dict_get d "tor_socks_address" = Some (VStr a)).
Proof.
  intros loaded full s s'.
  apply (load_settings_keeps_file_values 0 s s' (json_dumps (VDict loaded)) loaded).
  - reflexivity.
  - reflexivity.
  - reflexivity.
Defined.

(** X14, witness: a directory where the settings file should be. *)
Lemma load_settings_directory_in_the_way_witness :
  let s := Demo.state [(Demo.settings_json, Dir)] in
  load_settings 1 s
  = Some (Raise IsADirectoryError
            (with_self (set_settings (VDict (default_settings (self s)))) s)).
Proof.
  intros s. apply (load_settings_directory_in_the_way 0 s).
  - reflexivity.
  - left. reflexivity.
Defined.

(** X15, witness: the legacy file of the migration scenario. *)
Lemma load_settings_never_loses_legacy_witness :
  let s := Demo.state [(Demo.settings_pickle, File Demo.legacy_pickle)] in
  match load_settings 2 s with
  | Some (Ret _ s') | Some (Raise _ s') =>
      fs s' !! settings_file_pickle (paths (self s)) = Some (File Demo.legacy_pickle) \/
      fs s' !! settings_file_pickle (paths (self s)) = None /\
      exists text, fs s' !! settings_file (paths (self s)) = Some (File text)
  | None => False
  end.
Proof.
  intros s. apply (load_settings_never_loses_legacy 0 s Demo.legacy_pickle).
  - discriminate.
  - reflexivity.
Defined.

(** ** [proxies] after [load_settings] *)

Section ProxyTheorems.
Context `{Host}.

(** What every return of [load_settings] leaves in [self.settings]. *)
Lemma load_settings_record (fuel : nat) (s s' : State) :
  load_settings fuel s = Some (Ret tt s') ->
  exists (d : dict) (a : string) (over : value),
    settings (self s') = Some (VDict d) /\
    dict_get d "tor_socks_address" = Some (VStr a) /\
    dict_get d "download_over_tor" = Some over.
Proof.
  revert s. induction fuel as [|fuel IH]; intros s Hload; [done|].
  destruct (fs s !! settings_file (paths (self s))) as [[|text]|] eqn:Hjson.
  2: { cbn [load_settings] in Hload. rewrite read_json_settings_eq, Hjson in Hload.
       destruct (json_loads text) as [loaded|] eqn:Hloads; [|done].
       injection Hload as Hnorm.
       apply normalise_settings_inv in Hnorm
         as (d0 & d & a & -> & Ha & Hself & _ & _ & _ & _ & Hget).
       exists d, (if startswith a "tcp:" then str_drop 4 a else a).
       assert (is_Some (dict_get d "download_over_tor")) as [over Hover].
       { rewrite Hget, !decide_False by done.
         destruct (dict_get d0 "download_over_tor"); eauto. }
       exists over. split_and!; [by rewrite Hself | | done].
       rewrite Hget. by rewrite decide_False, decide_True. }
  all: rewrite load_settings_json_missing in Hload by eauto.
  all: destruct (fs s !! settings_file_pickle _) as [[|data]|] eqn:Hpickle.
  all: try (injection Hload as ->%install_defaults_inv;
            by exists (default_settings (self s)), "127.0.0.1:9050", (VBool false)).
  all: destruct (pickle_loads data) as [legacy|]; [|done].
  all: destruct (bind save_settings _ _) as [u s3|e3 s3] eqn:Hconv; [|done].
  all: by apply IH in Hload.
Qed.

(** X16: after [load_settings] has returned, [proxies] does not raise. It
    returns [None] when [download_over_tor] is false as Python tests it,
    and otherwise the dict that gives both [https] and [http] the address
    [socks5h://] followed by the stored [tor_socks_address]. *)
Theorem proxies_after_load_settings (fuel : nat) (s s' : State) :
  load_settings fuel s = Some (Ret tt s') ->
  exists (d : dict) (a : string) (over : value),
    settings (self s') = Some (VDict d) /\
    dict_get d "tor_socks_address" = Some (VStr a) /\
    dict_get d "download_over_tor" = Some over /\
    proxies s'
    = Ret (if PyStr.truth over
           then VDict [("https", VStr ("socks5h://" +:+ a));
                       ("http", VStr ("socks5h://" +:+ a))]
           else VNone) s'.
Proof.
  intros (d & a & over & Hd & Ha & Hover)%load_settings_record.
  exists d, a, over. split_and!; [done..|].
  unfold proxies, get_settings, bind, subscript_str, ret.
  rewrite Hd, Hover. destruct (PyStr.truth over); [|done].
  by rewrite Hd, Ha.
Qed.

End ProxyTheorems.

(** X16, witness: the settings file asks for downloads over Tor. *)
Lemma proxies_after_load_settings_witness :
  let d := Demo.migrated "1.2.3" false in
  let s := Demo.state [(Demo.settings_json, File (json_dumps (VDict d)))] in
  let s' := with_self (set_settings (VDict d)) s in
  exists (d : dict) (a : string) (over : value),
    settings (self s') = Some (VDict d) /\
    dict_get d "tor_socks_address" = Some (VStr a) /\
    dict_get d "download_over_tor" = Some over /\
    proxies s'
    = Ret (if PyStr.truth over
           then VDict [("https", VStr ("socks5h://" +:+ a));
                       ("http", VStr ("socks5h://" +:+ a))]
           else VNone) s'.
Proof.
  intros d s s'. apply (proxies_after_load_settings 1 s s'). reflexivity.
Defined.

(** ** [build_paths] with a version *)

Lemma app_inj_r (s1 s2 t : string) : s1 +:+ t = s2 +:+ t -> s1 = s2.
Proof.
  intros Heq. apply (f_equal String.rev) in Heq. rewrite !rev_append in Heq.
  apply (inj (String.app _)) in Heq.
  by rewrite <- (rev_involutive s1), Heq, rev_involutive.
Qed.

Lemma app_inj_length (a b x y : string) :
  a +:+ x = b +:+ y -> String.length a = String.length b -> a = b.
Proof.
  revert b. induction a as [|c a IH]; intros [|c' b] Heq Hlen; try done.
  rewrite !app_cons in Heq. injection Heq as -> Heq.
  f_equal. apply IH; [done|]. by injection Hlen.
Qed.

Lemma tarball_filename_inj (b : Bases) (c : Common) (v1 v2 : string) :
  tarball_filename (download_paths b c v1) = tarball_filename (download_paths b c v2) ->
  v1 = v2.
Proof.
  cbn [download_paths tarball_filename].
  intros Heq. do 3 apply (inj (String.app _)) in Heq. by apply app_inj_r in Heq.
Qed.

(** X17: the download entries of two versions, neither of which holds a
    [/], never coincide: each of the six entries determines the version.
    Every signature entry is the tarball entry followed by [.asc], and no
    tarball entry of one version is a signature entry of another. *)
Theorem download_paths_tell_versions_apart (b : Bases) (c : Common) (v1 v2 : string) :
  PyStr.contains_char "/" v1 = false ->
  PyStr.contains_char "/" v2 = false ->
  let d1 := download_paths b c v1 in
  let d2 := download_paths b c v2 in
  (tarball_filename d1 = tarball_filename d2 -> v1 = v2) /\
  (tarball_file d1 = tarball_file d2 -> v1 = v2) /\
  (tarball_url d1 = tarball_url d2 -> v1 = v2) /\
  (sig_filename d1 = sig_filename d2 -> v1 = v2) /\
  (sig_file d1 = sig_file d2 -> v1 = v2) /\
  (sig_url d1 = sig_url d2 -> v1 = v2) /\
  sig_filename d1 = tarball_filename d1 +:+ ".asc" /\
  sig_file d1 = tarball_file d1 +:+ ".asc" /\
  sig_url d1 = tarball_url d1 +:+ ".asc" /\
  tarball_file d1 <> sig_file d2 /\
  tarball_filename d1 <> sig_filename d2 /\
  tarball_url d1 <> sig_url d2.
Proof.
  intros _ _ d1 d2. subst d1 d2.
  assert (Hurl : forall x y, "torbrowser/" +:+ v1 +:+ "/" +:+ x
                             = "torbrowser/" +:+ v2 +:+ "/" +:+ y ->
                             (String.length x + String.length v2
                              = String.length y + String.length v1)%nat -> v1 = v2).
  { intros x y Heq Hlen. apply (inj (String.app _)) in Heq.
    apply (app_inj_length _ _ _ _ Heq).
    apply (f_equal String.length) in Heq. rewrite !length_app in Heq.
    cbn in Heq. lia. }
  split_and!.
  - apply tarball_filename_inj.
  - cbn [download_paths tarball_file]. unfold pjoin.
    intros Heq. do 2 apply (inj (String.app _)) in Heq.
    by apply (tarball_filename_inj b c).
  - cbn [download_paths tarball_url]. intros Heq.
    apply (Hurl _ _ Heq). rewrite !length_app. cbn. lia.
  - cbn [download_paths sig_filename]. intros Heq%app_inj_r.
    by apply (tarball_filename_inj b c).
  - cbn [download_paths sig_file]. unfold pjoin.
    intros Heq. do 2 apply (inj (String.app _)) in Heq. apply app_inj_r in Heq.
    by apply (tarball_filename_inj b c).
  - cbn [download_paths sig_url]. intros Heq.
    apply (Hurl _ _ Heq). rewrite !length_app. cbn. lia.
  - done.
  - cbn [download_paths sig_file tarball_file]. unfold pjoin.
    by rewrite !app_assoc_string.
  - cbn [download_paths sig_url tarball_url]. by rewrite !app_assoc_string.
  - cbn [download_paths sig_file tarball_file]. last_differs.
  - cbn [download_paths sig_filename tarball_filename]. last_differs.
  - cbn [download_paths sig_url tarball_url]. last_differs.
Qed.

(** X17, witness: two releases. *)
Lemma download_paths_tell_versions_apart_witness :
  let d1 := download_paths Demo.bases Demo.common "13.0.1" in
  let d2 := download_paths Demo.bases Demo.common "13.0.2" in
  (tarball_filename d1 = tarball_filename d2 -> "13.0.1" = "13.0.2") /\
  (tarball_file d1 = tarball_file d2 -> "13.0.1" = "13.0.2") /\
  (tarball_url d1 = tarball_url d2 -> "13.0.1" = "13.0.2") /\
  (sig_filename d1 = sig_filename d2 -> "13.0.1" = "13.0.2") /\
  (sig_file d1 = sig_file d2 -> "13.0.1" = "13.0.2") /\
  (sig_url d1 = sig_url d2 -> "13.0.1" = "13.0.2") /\
  sig_filename d1 = tarball_filename d1 +:+ ".asc" /\
  sig_file d1 = tarball_file d1 +:+ ".asc" /\
  sig_url d1 = tarball_url d1 +:+ ".asc" /\
  tarball_file d1 <> sig_file d2 /\
  tarball_filename d1 <> sig_filename d2 /\
  tarball_url d1 <> sig_url d2.
Proof.
  apply (download_paths_tell_versions_apart Demo.bases Demo.common "13.0.1" "13.0.2");
    reflexivity.
Defined.

(** ** [gnupg_import_ok_pattern] *)

Lemma str_drop_app (l s : string) : str_drop (String.length l) (l +:+ s) = s.
Proof. induction l as [|c l IH]; [by destruct s|]. by rewrite app_cons. Qed.

Lemma run_Lit (l s s' : string) : s' ∈ Re.run (Re.Lit l) s <-> s = l +:+ s'.
Proof.
  cbn [Re.run]. destruct (String.prefix l s) eqn:Hp.
  - apply prefix_spec in Hp as [suf ->]. rewrite str_drop_app, list_elem_of_singleton.
    split; [by intros -> | by intros ->%(inj (String.app _))].
  - rewrite elem_of_nil. split; [done|]. intros ->.
    assert (String.prefix l (l +:+ s') = true) by (apply prefix_spec; eauto).
    congruence.
Qed.

Lemma run_Class (ranges : list (ascii * ascii)) (s s' : string) :
  s' ∈ Re.run (Re.Class ranges) s <->
  exists c, Re.in_class ranges c = true /\ s = String c s'.
Proof.
  cbn [Re.run]. destruct s as [|c s].
  - rewrite elem_of_nil. split; [done|]. by intros (c & _ & ?).
  - destruct (Re.in_class ranges c) eqn:Hc.
    + rewrite list_elem_of_singleton. split; [intros ->; eauto|].
      by intros (c' & _ & [= -> ->]).
    + rewrite elem_of_nil. split; [done|]. intros (c' & Hc' & [= -> ->]). congruence.
Qed.

Lemma run_Seq (r1 r2 : Re.regex) (s s' : string) :
  s' ∈ Re.run (Re.Seq r1 r2) s <-> exists m, m ∈ Re.run r1 s /\ s' ∈ Re.run r2 m.
Proof.
  cbn [Re.run]. rewrite list_elem_of_bind.
  split; intros (m & Hm1 & Hm2); exists m; by split.
Qed.

Lemma run_Rep_Class (ranges : list (ascii * ascii)) (n : nat) (s s' : string) :
  s' ∈ Re.run (Re.Rep n (Re.Class ranges)) s <->
  exists p, s = p +:+ s' /\ String.length p = n /\ Re.all_in_class ranges p = true.
Proof.
  revert s. induction n as [|n IH]; intros s.
  - cbn [Re.run]. rewrite list_elem_of_singleton. split.
    + intros ->. by exists EmptyString.
    + intros (p & -> & Hlen & _). by destruct p.
  - change (Re.run (Re.Rep (S n) (Re.Class ranges)) s)
      with (Re.run (Re.Class ranges) s ≫= Re.run (Re.Rep n (Re.Class ranges))).
    rewrite list_elem_of_bind. split.
    + intros (m & (p & -> & Hlen & Hall)%IH & (c & Hc & ->)%run_Class).
      exists (String c p). rewrite app_cons. cbn. by rewrite Hc, Hall, Hlen.
    + intros (p & -> & Hlen & Hall). destruct p as [|c p]; [done|].
      cbn in Hall. apply andb_true_iff in Hall as [Hc Hall].
      exists (p +:+ s'). split.
      * apply IH. exists p. split_and!; [done | by injection Hlen | done].
      * apply run_Class. exists c. by rewrite app_cons.
Qed.

(** The third field: the strings that [[0-9]|[1]?[0-5]] matches are the
    decimal numerals of 0 to 15. *)
Lemma run_reason (s s' : string) :
  s' ∈ Re.run (Re.Alt (Re.Class [("0"%char, "9"%char)])
                 (Re.Seq (Re.Opt (Re.Class [("1"%char, "1"%char)]))
                    (Re.Class [("0"%char, "5"%char)]))) s
  <-> exists reason : Z, 0 <= reason <= 15 /\ s = pretty reason +:+ s'.
Proof.
  split.
  - cbn [Re.run]. rewrite elem_of_app, list_elem_of_bind.
    intros [Hd|(m & H05 & [H1|Hm]%elem_of_app)].
    + apply (run_Class [("0"%char, "9"%char)]) in Hd as (c & Hc & ->).
      exists (Z.of_N (N_of_ascii c) - 48).
      destruct c as [[] [] [] [] [] [] [] []]; try discriminate Hc;
        (split; [vm_compute; split; discriminate | reflexivity]).
    + apply (run_Class [("0"%char, "5"%char)]) in H05 as (c & Hc & ->).
      apply (run_Class [("1"%char, "1"%char)]) in H1 as (c1 & Hc1 & ->).
      exists (Z.of_N (N_of_ascii c) - 38).
      destruct c1 as [[] [] [] [] [] [] [] []]; try discriminate Hc1.
      destruct c as [[] [] [] [] [] [] [] []]; try discriminate Hc;
        (split; [vm_compute; split; discriminate | reflexivity]).
    + apply list_elem_of_singleton in Hm as ->.
      apply (run_Class [("0"%char, "5"%char)]) in H05 as (c & Hc & ->).
      exists (Z.of_N (N_of_ascii c) - 48).
      destruct c as [[] [] [] [] [] [] [] []]; try discriminate Hc;
        (split; [vm_compute; split; discriminate | reflexivity]).
  - intros (reason & Hrange & ->).
    assert (Hcases : reason = 0 \/ reason = 1 \/ reason = 2 \/ reason = 3 \/
                     reason = 4 \/ reason = 5 \/ reason = 6 \/ reason = 7 \/
                     reason = 8 \/ reason = 9 \/ reason = 10 \/ reason = 11 \/
                     reason = 12 \/ reason = 13 \/ reason = 14 \/ reason = 15) by lia.
    clear Hrange.
    repeat destruct Hcases as [->|Hcases]; try subst reason;
      vm_compute; set_solver.
Qed.

Lemma upper_hex_class (c : ascii) :
  Re.in_class [("A"%char, "F"%char); ("0"%char, "9"%char)] c =
  bool_decide (c ∈ String.list_ascii_of_string "0123456789ABCDEF").
Proof. by destruct c as [[] [] [] [] [] [] [] []]. Qed.

Lemma all_in_class_spec (ranges : list (ascii * ascii)) (s : string) :
  Re.all_in_class ranges s = true <->
  forall c, c ∈ String.list_ascii_of_string s -> Re.in_class ranges c = true.
Proof.
  induction s as [|a s IH]; cbn [Re.all_in_class String.list_ascii_of_string].
  - split; [intros _ c Hc; by apply elem_of_nil in Hc | done].
  - rewrite andb_true_iff, IH. split.
    + intros [Ha Hs] c [->|Hc]%elem_of_cons; auto.
    + intros Hall. split; [apply Hall; left | intros c Hc; apply Hall; by right].
Qed.

(** X18: [gnupg_import_ok_pattern] matches a whole line exactly when the
    line is [[GNUPG:] IMPORT_OK], one space, the decimal numeral of an
    integer from 0 to 15, one space, and 40 characters that are digits or
    upper-case letters from A to F. *)
Theorem gnupg_import_ok_pattern_language (line : string) :
  Re.fullmatch gnupg_import_ok_pattern line = true <->
  exists (reason : Z) (fpr : string),
    line = "[GNUPG:] IMPORT_OK " +:+ pretty reason +:+ " " +:+ fpr /\
    0 <= reason <= 15 /\
    String.length fpr = 40%nat /\
    forall c, c ∈ String.list_ascii_of_string fpr ->
              c ∈ String.list_ascii_of_string "0123456789ABCDEF".
Proof.
  unfold Re.fullmatch, gnupg_import_ok_pattern.
  rewrite bool_decide_eq_true. split.
  - intros (m1 & ->%run_Lit & (m2 & ->%run_Lit & (m3 & ->%run_Lit &
      (m4 & ->%run_Lit & (m5 & (reason & Hrange & ->)%run_reason &
      (m6 & ->%run_Lit & (fpr & -> & Hlen & Hall)%run_Rep_Class)%run_Seq)%run_Seq
      )%run_Seq)%run_Seq)%run_Seq)%run_Seq.
    exists reason, fpr. rewrite app_empty_r.
    split_and!; [reflexivity | apply Hrange.. | done |].
    intros c Hc. apply (proj1 (all_in_class_spec _ _) Hall) in Hc.
    by rewrite upper_hex_class, bool_decide_eq_true in Hc.
  - intros (reason & fpr & -> & Hrange & Hlen & Hall).
    apply run_Seq. exists (" IMPORT_OK " +:+ pretty reason +:+ " " +:+ fpr).
    split; [by apply run_Lit|].
    apply run_Seq. exists ("IMPORT_OK " +:+ pretty reason +:+ " " +:+ fpr).
    split; [by apply run_Lit|].
    apply run_Seq. exists (" " +:+ pretty reason +:+ " " +:+ fpr).
    split; [by apply run_Lit|].
    apply run_Seq. exists (pretty reason +:+ " " +:+ fpr).
    split; [by apply run_Lit|].
    apply run_Seq. exists (" " +:+ fpr).
    split; [apply run_reason; eauto|].
    apply run_Seq. exists fpr.
    split; [by apply run_Lit|].
    apply run_Rep_Class. exists fpr. rewrite app_empty_r. split_and!; [done..|].
    apply all_in_class_spec. intros c Hc.
    rewrite upper_hex_class, bool_decide_eq_true. by apply Hall.
Qed.
